(** * boneio.helper.gpio: pin configuration, input set-up, reading and edge arming

    A shallow embedding of [src/boneio/helper/gpio.py].  The module talks to
    three collaborators it does not implement: the [config-pin] command
    (through [subprocess.run]), the Adafruit_BBIO [GPIO] driver and the
    [asyncio] event loop.  They are modelled as a [World]: an oracle that
    answers each call from the history of calls made so far.  Every call the
    module makes is appended to that history, so the order of the calls can be
    stated and proved.  Python exceptions are the [Raise] case of [result].

    The second part embeds the helpers of [src/install_script.py]: the
    start-up checks and the [Whiptail] dialogs. *)

From Stdlib Require Import ZArith String Ascii List Bool Lia DecimalString.
From stdpp Require Import base option strings gmap list.

Local Open Scope string_scope.
Local Open Scope list_scope.
Local Open Scope Z_scope.

(** ** Values, exceptions, the call history *)

(** The Python values that travel through the configuration record and the
    argument vector of the external command.  A [str] is the sequence of its
    characters, so [String.length] is Python's [len]. *)
Inductive pyval : Type :=
| PStr (s : string)
| PInt (n : Z).

(** [Gpio_States]: the two levels of a pin.

    Modelled from the spec: [boneio.const] is not among the sources; the spec
    gives the active level as the enumeration HIGH, LOW, compared with the raw
    level the driver reports. *)
Inductive Gpio_States : Type := LOW | HIGH.

(** [Gpio_Edges].

    Modelled from the spec: [boneio.const] is not among the sources; the spec
    gives the edge kinds RISING, FALLING and BOTH. *)
Inductive Gpio_Edges : Type := RISING | FALLING | BOTH.

(** Arguments of [GPIO.setup]: [GPIO.IN]/[GPIO.OUT] and the pull enumeration. *)
Inductive direction : Type := IN | OUT.
Inductive pull : Type := PUD_OFF | PUD_DOWN | PUD_UP.

(** Callables and event loops are opaque handles. *)
Definition Callable : Type := nat.
Definition Loop : Type := nat.

(** Exception classes.  [OtherError] stands for every class that derives from
    none of [ValueError], [SystemError], [RuntimeError] (for instance
    [FileNotFoundError] or [TypeError]).

    Modelled from the spec: [boneio.helper.exceptions] is not among the
    sources; [GPIOInputException] is the spec's typed input error, built from
    the exception it reports. *)
Inductive exn : Type :=
| TimeoutExpired (cmd : list pyval) (timeout : Z)
| ValueError (msg : string)
| SystemError (msg : string)
| RuntimeError (msg : string)
| OtherError (cls msg : string)
| GPIOInputException (cause : exn).

Inductive event : Type :=
| EvRun (argv : list pyval) (timeout : Z)
| EvGetRunningLoop
| EvSetup (pin : string) (dir : direction) (pud : pull)
| EvOutput (pin : string) (value : pyval)
| EvInput (pin : string)
| EvAddEventDetect (pin : string) (edge : Gpio_Edges)
    (callback : Callable) (bouncetime : Z).

(** What the started command does: it ends after [elapsed_ms] milliseconds
    with [returncode], never ends, or cannot be started at all. *)
Inductive proc_behaviour : Type :=
| Exits (elapsed_ms : Z) (returncode : Z)
| Hangs
| SpawnFails (e : exn).

Record World : Type := {
  process : list event -> list pyval -> proc_behaviour;
  gpio_setup : list event -> string -> direction -> pull -> option exn;
  gpio_output : list event -> string -> pyval -> option exn;
  gpio_input : list event -> string -> exn + Gpio_States;
  gpio_add_event_detect :
    list event -> string -> Gpio_Edges -> Callable -> Z -> option exn;
  running_loop : list event -> option Loop
}.

(** The constants imported from [boneio.const], which is not among the
    sources: they are parameters of the development. *)
Record Const : Type := {
  CONFIG_PIN : string;
  GPIO_STR : string;
  GPIO_MODE : string
}.

(** ** The monad of calls: history passing with exceptions *)

Inductive result (A : Type) : Type :=
| Ret (a : A)
| Raise (e : exn).
Arguments Ret {A} a.
Arguments Raise {A} e.

Definition M (A : Type) : Type := list event -> result A * list event.

Definition ret {A} (a : A) : M A := fun tr => (Ret a, tr).

Definition raise {A} (e : exn) : M A := fun tr => (Raise e, tr).

Definition bind {A B} (m : M A) (k : A -> M B) : M B :=
  fun tr =>
    match m tr with
    | (Ret a, tr') => k a tr'
    | (Raise e, tr') => (Raise e, tr')
    end.

Notation "x <~ c1 ;; c2" := (bind c1 (fun x => c2))
  (at level 100, c1 at next level, right associativity).

(** [try: body except classes as err: handler err]. *)
Definition try_except {A} (body : M A) (classes : exn -> bool)
    (handler : exn -> M A) : M A :=
  fun tr =>
    match body tr with
    | (Ret a, tr') => (Ret a, tr')
    | (Raise e, tr') => if classes e then handler e tr' else (Raise e, tr')
    end.

(** One call of a collaborator: the answer is taken at the history before the
    call, and the call is appended to the history. *)
Definition call {A} (ev : event) (answer : list event -> result A) : M A :=
  fun tr => (answer tr, tr ++ [ev]).

Definition of_driver (o : option exn) : result unit :=
  match o with
  | None => Ret tt
  | Some e => Raise e
  end.

(** Python's [is] on the two driver levels (the small integers 0 and 1). *)
Definition Gpio_States_is (a b : Gpio_States) : bool :=
  match a, b with
  | LOW, LOW => true
  | HIGH, HIGH => true
  | _, _ => false
  end.

Definition is_ValueError_or_SystemError (e : exn) : bool :=
  match e with
  | ValueError _ | SystemError _ => true
  | _ => false
  end.

Definition is_RuntimeError (e : exn) : bool :=
  match e with
  | RuntimeError _ => true
  | _ => false
  end.

(** ** The collaborators *)

(** [subprocess.run(argv, timeout=t)] without [check=True]: the return code
    comes back as a value, whatever it is; only a command that is still
    running when [t] seconds have passed raises [TimeoutExpired]. *)
Definition subprocess_run (W : World) (argv : list pyval) (timeout : Z)
  : M Z :=
  call (EvRun argv timeout) (fun tr =>
    match process W tr argv with
    | Exits ms rc =>
        if ms <=? 1000 * timeout then Ret rc
        else Raise (TimeoutExpired argv timeout)
    | Hangs => Raise (TimeoutExpired argv timeout)
    | SpawnFails e => Raise e
    end).

Definition GPIO_setup (W : World) (pin : string) (dir : direction)
    (pud : pull) : M unit :=
  call (EvSetup pin dir pud) (fun tr => of_driver (gpio_setup W tr pin dir pud)).

Definition GPIO_output (W : World) (pin : string) (value : pyval) : M unit :=
  call (EvOutput pin value) (fun tr => of_driver (gpio_output W tr pin value)).

Definition GPIO_input (W : World) (pin : string) : M Gpio_States :=
  call (EvInput pin) (fun tr =>
    match gpio_input W tr pin with
    | inr l => Ret l
    | inl e => Raise e
    end).

Definition GPIO_add_event_detect (W : World) (pin : string)
    (edge : Gpio_Edges) (callback : Callable) (bouncetime : Z) : M unit :=
  call (EvAddEventDetect pin edge callback bouncetime) (fun tr =>
    of_driver (gpio_add_event_detect W tr pin edge callback bouncetime)).

Definition get_running_loop (W : World) : M Loop :=
  call EvGetRunningLoop (fun tr =>
    match running_loop W tr with
    | Some l => Ret l
    | None => Raise (RuntimeError "no running event loop")
    end).

(** ** The functions of gpio.py

    A parameter with a default value is an [option]: [None] is the call that
    leaves the argument out. *)

(** The first statement of [configure_pin]:
    [pin = f"{pin[0:3]}0{pin[3]}" if len(pin) == 4 else pin]. *)
Definition normalize_pin (pin : string) : string :=
  if Nat.eqb (String.length pin) 4
  then String.append (substring 0 3 pin)
         (String.append "0" (substring 3 1 pin))
  else pin.

(** The debug log line has no effect on the calls or on the result and is
    left out. *)
Definition configure_pin (K : Const) (W : World) (pin : string)
    (mode : option pyval) : M unit :=
  let mode := default (PStr (GPIO_STR K)) mode in
  let pin := normalize_pin pin in
  _ <~ subprocess_run W [PStr (CONFIG_PIN K); PStr pin; mode] 1 ;;
  ret tt.

Definition setup_output (W : World) (pin : string) : M unit :=
  GPIO_setup W pin OUT PUD_DOWN.

Definition setup_input (W : World) (pin : string)
    (pull_mode : option string) : M unit :=
  let pull_mode := default "UP" pull_mode in
  try_except
    (GPIO_setup W pin IN
       (if String.eqb pull_mode "DOWN" then PUD_DOWN else PUD_UP))
    is_ValueError_or_SystemError
    (fun err => raise (GPIOInputException err)).

Definition write_output (W : World) (pin : string) (value : pyval) : M unit :=
  GPIO_output W pin value.

Definition read_input (W : World) (pin : string)
    (on_state : option Gpio_States) : M bool :=
  let on_state := default LOW on_state in
  raw <~ GPIO_input W pin ;;
  ret (Gpio_States_is raw on_state).

Definition edge_detect (W : World) (pin : string) (callback : Callable)
    (bounce : option Z) (edge : option Gpio_Edges) : M unit :=
  let bounce := default 0 bounce in
  let edge := default FALLING edge in
  try_except
    (GPIO_add_event_detect W pin edge callback bounce)
    is_RuntimeError
    (fun err => raise (GPIOInputException err)).

(** ** class GpioBaseClass *)

Record GpioBaseClass : Type := {
  _pin : string;
  _bounce_time : pyval;
  _loop : Loop;
  _press_callback : Callable
}.

(** The keyword arguments: a mapping from names to configuration records,
    each a mapping itself.  Only [rest_pin] is ever looked up. *)
Definition rest_pin_of (K : Const) (kwargs : gmap string (gmap string pyval))
  : gmap string pyval :=
  default {[ GPIO_MODE K := PStr (GPIO_STR K) ]} (kwargs !! "rest_pin").

Definition __init__ (K : Const) (W : World) (pin : string)
    (press_callback : Callable) (kwargs : gmap string (gmap string pyval))
  : M GpioBaseClass :=
  let gpio := rest_pin_of K kwargs in
  let bounce_time := default (PInt 25) (gpio !! "bounce_time") in
  _ <~ configure_pin K W pin
         (Some (default (PStr (GPIO_STR K)) (gpio !! GPIO_MODE K))) ;;
  loop <~ get_running_loop W ;;
  _ <~ setup_input W pin None ;;
  ret {| _pin := pin; _bounce_time := bounce_time; _loop := loop;
         _press_callback := press_callback |}.

Definition is_pressed (W : World) (self : GpioBaseClass) : M bool :=
  read_input W (_pin self) None.

(** ** Derived notions used in the statements *)

(** The argument vector [configure_pin] hands to [subprocess.run]. *)
Definition config_argv (K : Const) (pin : string) (mode : option pyval)
  : list pyval :=
  [PStr (CONFIG_PIN K); PStr (normalize_pin pin);
   default (PStr (GPIO_STR K)) mode].

(** The electrical mode [__init__] resolves from the keyword arguments. *)
Definition resolved_mode (K : Const) (kwargs : gmap string (gmap string pyval))
  : pyval :=
  default (PStr (GPIO_STR K)) (rest_pin_of K kwargs !! GPIO_MODE K).

Definition is_arming (ev : event) : bool :=
  match ev with
  | EvAddEventDetect _ _ _ _ => true
  | _ => false
  end.

(** The calls a construction can make, in their order. *)
Definition init_stages (K : Const) (pin : string)
    (kwargs : gmap string (gmap string pyval)) : list event :=
  [EvRun (config_argv K pin (Some (resolved_mode K kwargs))) 1;
   EvGetRunningLoop;
   EvSetup pin IN PUD_UP].

(** ** Concrete boards for the examples *)

(** The key [mode] and the default ["GPIO"] are the spec's; the command name
    stands for the path of the board's [config-pin]. *)
Definition bench_consts : Const :=
  {| CONFIG_PIN := "config-pin"; GPIO_STR := "GPIO"; GPIO_MODE := "mode" |}.

(** A board whose collaborators answer the same way whatever happened
    before. *)
Definition board (p : proc_behaviour) (s : option exn) (lvl : Gpio_States)
    (a : option exn) (l : option Loop) : World :=
  {| process := fun _ _ => p;
     gpio_setup := fun _ _ _ _ => s;
     gpio_output := fun _ _ _ => None;
     gpio_input := fun _ _ => inr lvl;
     gpio_add_event_detect := fun _ _ _ _ _ => a;
     running_loop := fun _ => l |}.

Definition board_ok : World := board (Exits 20 0) None HIGH None (Some 7%nat).

(** The command ends with status 1; runs past the timeout; no event loop
    is running. *)
Definition board_exit1 : World := board (Exits 20 1) None HIGH None (Some 7%nat).
Definition board_slow : World := board (Exits 1500 0) None HIGH None (Some 7%nat).
Definition board_no_loop : World := board (Exits 20 0) None HIGH None None.

(** The driver refuses the set-up, or the edge registration, with [e]. *)
Definition board_setup_fails (e : exn) : World :=
  board (Exits 20 0) (Some e) HIGH None (Some 7%nat).

Definition board_arm_fails (e : exn) : World :=
  board (Exits 20 0) None HIGH (Some e) (Some 7%nat).

(** The driver refuses every read with [e]. *)
Definition board_read_fails (e : exn) : World :=
  {| process := fun _ _ => Exits 20 0;
     gpio_setup := fun _ _ _ _ => None;
     gpio_output := fun _ _ _ => None;
     gpio_input := fun _ _ => inl e;
     gpio_add_event_detect := fun _ _ _ _ _ => None;
     running_loop := fun _ => Some 7%nat |}.

(** * install_script.py

    The installer's helpers.  The dialogs are drawn by the [whiptail]
    program, started with [subprocess.Popen]; what it answers (an exit
    status and the text it wrote to its error stream, or an exception of
    [Popen] itself) is the oracle [Popen].  [shlex.split] belongs to the
    Python library and is a parameter too.  Log lines and the message printed
    before [sys.exit] are left out. *)

(** How a call ends: with a value, by [sys.exit(code)], or with an
    exception. *)
Inductive outcome (A : Type) : Type :=
| Returned (a : A)
| Exited (code : Z)
| Raised (e : exn).
Arguments Returned {A} a.
Arguments Exited {A} code.
Arguments Raised {A} e.

Definition obind {A B} (o : outcome A) (k : A -> outcome B) : outcome B :=
  match o with
  | Returned a => k a
  | Exited c => Exited c
  | Raised e => Raised e
  end.

(** Python's [str] on an [int]. *)
Definition str_of_int (z : Z) : string := NilZero.string_of_int (Z.to_int z).

(** Python's [==] on the values at hand: a [str] never equals an [int]. *)
Definition py_eq (a b : pyval) : bool :=
  match a, b with
  | PStr s, PStr t => String.eqb s t
  | PInt n, PInt m => Z.eqb n m
  | _, _ => false
  end.

(** Python's [int] on a [bool]. *)
Definition int_of_bool (b : bool) : Z := if b then 1 else 0.

Definition is_root (geteuid : Z) : bool :=
  if geteuid =? 0 then true else false.

Definition flatten {A} (data : list (list A)) : list A := concat data.

Record Response : Type := { returncode : Z; value : string }.

(** [seq[0]] on a list. *)
Definition item0 {A} (l : list A) : outcome A :=
  match l with
  | x :: _ => Returned x
  | [] => Raised (OtherError "IndexError" "list index out of range")
  end.

Module Whiptail.

Record t : Type := {
  title : string;
  backtitle : string;
  height : Z;
  width : Z;
  auto_exit : bool
}.

Definition __init__ (title backtitle : option string)
    (height width : option Z) (auto_exit : option bool) : t :=
  Build_t (default "" title) (default "" backtitle) (default 20 height)
    (default 60 width) (default true auto_exit).

Section methods.

Variable Popen : list string -> exn + (Z * string).
Variable shlex_split : string -> exn + list string.

Definition run (self : t) (control msg : string)
    (extra : option (list string)) (exit_on : option (list Z))
  : outcome Response :=
  let extra := default [] extra in
  let exit_on := default [1; 255] exit_on in
  let cmd :=
    ["whiptail"; "--title"; title self; "--backtitle"; backtitle self;
     String.append "--" control; msg;
     str_of_int (height self); str_of_int (width self)] ++ extra in
  match Popen cmd with
  | inl e => Raised e
  | inr (rc, err) =>
      if auto_exit self && existsb (Z.eqb rc) exit_on then Exited rc
      else Returned {| returncode := rc; value := err |}
  end.

Definition prompt (self : t) (msg : string) (default_ : option string)
    (password : option bool) : outcome string :=
  let default_ := default "" default_ in
  let password := default false password in
  let control := if password then "passwordbox" else "inputbox" in
  obind (run self control msg (Some [default_]) None)
    (fun r => Returned (value r)).

Definition confirm (self : t) (msg : string) (default_ : option string)
  : outcome bool :=
  let default_ := default "yes" default_ in
  let defaultno := if String.eqb default_ "no" then "--defaultno" else "" in
  obind (run self "yesno" msg (Some [defaultno]) (Some [255]))
    (fun r => Returned (returncode r =? 0)).

Definition alert (self : t) (msg : string) : outcome unit :=
  obind (run self "msgbox" msg None None) (fun _ => Returned tt).

Definition view_file (self : t) (path : string) : outcome unit :=
  obind (run self "textbox" path (Some ["--scrolltext"]) None)
    (fun _ => Returned tt).

Definition calc_height (self : t) (msg : string) : list string :=
  let height_offset := if String.eqb msg "" then 7 else 8 in
  [str_of_int (height self - height_offset)].

(** [items] is the empty tuple of the default ([None]), a list of tags or a
    list of tuples; [isinstance(items[0], str)] tells the last two apart once
    [items[0]] exists. *)
Definition menu (self : t) (msg : option string)
    (items : option (list string + list (string * string)))
    (prefix : option string) : outcome string :=
  let msg := default "" msg in
  let prefix := default " - " prefix in
  match items with
  | None => Raised (OtherError "IndexError" "tuple index out of range")
  | Some (inl []) | Some (inr []) =>
      Raised (OtherError "IndexError" "list index out of range")
  | Some its =>
      let items :=
        match its with
        | inl l => map (fun i => (i, "")) l
        | inr l => map (fun '(k, v) => (k, String.append prefix v)) l
        end in
      let extra :=
        calc_height self msg ++ flatten (map (fun '(a, b) => [a; b]) items) in
      obind (run self "menu" msg (Some extra) None)
        (fun r => Returned (value r))
  end.

Definition split_value (r : Response) : outcome (list string) :=
  match shlex_split (value r) with
  | inr toks => Returned toks
  | inl e => Raised e
  end.

Definition showlist (self : t) (control msg : string)
    (items : option (list string + list (string * string * string)))
    (prefix : string) : outcome (list string) :=
  match items with
  | None => Raised (OtherError "IndexError" "tuple index out of range")
  | Some (inl []) | Some (inr []) =>
      Raised (OtherError "IndexError" "list index out of range")
  | Some its =>
      let items :=
        match its with
        | inl l => map (fun tag => (tag, "", "OFF")) l
        | inr l =>
            map (fun '(tag, value, state) =>
                   (tag, String.append prefix value, state)) l
        end in
      let extra :=
        calc_height self msg
        ++ flatten (map (fun '(a, b, c) => [a; b; c]) items) in
      obind (run self control msg (Some extra) None) split_value
  end.

Definition show_tag_only_list (self : t) (control msg : string)
    (items : option (list string + list (string * string * string)))
    (prefix : string) : outcome (list string) :=
  match items with
  | None => Raised (OtherError "IndexError" "tuple index out of range")
  | Some (inl []) | Some (inr []) =>
      Raised (OtherError "IndexError" "list index out of range")
  | Some its =>
      let items :=
        match its with
        | inl l => map (fun tag => (tag, "", "OFF")) l
        | inr l => map (fun '(tag, value, state) => (tag, "", state)) l
        end in
      let extra :=
        calc_height self msg
        ++ flatten (map (fun '(a, b, c) => [a; b; c]) items) in
      obind (run self control msg (Some extra) None) split_value
  end.

Definition radiolist (self : t) (msg : option string)
    (items : option (list string + list (string * string * string)))
    (prefix : option string) : outcome string :=
  obind (showlist self "radiolist" (default "" msg) items
           (default " - " prefix)) item0.

Definition node_radiolist (self : t) (msg : option string)
    (items : option (list string + list (string * string * string)))
    (prefix : option string) : outcome string :=
  obind (show_tag_only_list self "radiolist" (default "" msg) items
           (default "" prefix)) item0.

Definition checklist (self : t) (msg : option string)
    (items : option (list string + list (string * string * string)))
    (prefix : option string) : outcome (list string) :=
  showlist self "checklist" (default "" msg) items (default " - " prefix).

End methods.

End Whiptail.

(** [read_os_release] parses /etc/os-release into a dictionary from the
    lowered keys to the values, each a [str] stripped of its quotes.  Its
    answer, the dictionary or the exception of a file that cannot be read or
    parsed, is an argument of [check_os], with the answer of
    [os.path.isfile("/etc/debian_version")].  The result [None] is the
    function running off its end. *)
Definition check_os (isfile : bool)
    (read_os_release : result (gmap string string)) : result (option bool) :=
  if isfile then
    match read_os_release with
    | Raise e => Raise e
    | Ret os_data =>
        match os_data !! "id" with
        | None => Raise (OtherError "KeyError" "id")
        | Some id =>
            if String.eqb id "debian" then
              match os_data !! "version_id" with
              | None => Raise (OtherError "KeyError" "version_id")
              | Some version_id =>
                  if negb (int_of_bool (py_eq (PStr version_id) (PInt 10))
                           =? 0)
                  then Ret (Some true)
                  else Ret (Some false)
              end
            else Ret (Some false)
        end
    end
  else Ret None.

Definition check_arch (machine : string) : bool :=
  if String.eqb machine "armv7l" then true else false.

(** Truth value of what [check_os] returns. *)
Definition truthy (r : option bool) : bool := default false r.

(** The checks at the head of the script, up to the first command it runs:
    [Returned tt] is the script going on to the installation. *)
Definition main_checks (geteuid : Z) (isfile : bool)
    (read_os_release : result (gmap string string)) (machine : string)
    (version_info : Z * Z) : outcome unit :=
  if is_root geteuid then Exited 1
  else
    match check_os isfile read_os_release with
    | Raise e => Raised e
    | Ret os_ok =>
        if negb (truthy os_ok) || negb (check_arch machine) then Exited 1
        else
          let '(major, minor) := version_info in
          if (major <? 3) || ((major =? 3) && (minor <=? 7)) then Exited 1
          else Returned tt
    end.

(** The dialog object of the script, and one that never exits. *)
Definition installer_dialog : Whiptail.t :=
  Whiptail.__init__ (Some "BoneIO") (Some "Installation script") (Some 39)
    (Some 120) None.

Definition quiet_dialog : Whiptail.t :=
  Whiptail.__init__ (Some "BoneIO") (Some "Installation script") (Some 39)
    (Some 120) (Some false).

(** * Properties *)

(** ** Evaluation lemmas: each function as one case analysis on the answers
    of its collaborators *)

Ltac run_calls :=
  unfold bind, call, ret, raise, try_except, of_driver; simpl.

Lemma configure_pin_eq K W pin mode tr :
  configure_pin K W pin mode tr =
  (match process W tr (config_argv K pin mode) with
   | Exits ms rc =>
       if ms <=? 1000 then Ret tt
       else Raise (TimeoutExpired (config_argv K pin mode) 1)
   | Hangs => Raise (TimeoutExpired (config_argv K pin mode) 1)
   | SpawnFails e => Raise e
   end,
   tr ++ [EvRun (config_argv K pin mode) 1]).
Proof.
  unfold configure_pin, subprocess_run, config_argv. run_calls.
  change (1000 * 1) with 1000.
  destruct (process W tr _) as [ms rc| |e]; try reflexivity.
  destruct (ms <=? 1000); reflexivity.
Qed.

Lemma setup_input_eq W pin pull_mode tr :
  let pud := if String.eqb (default "UP" pull_mode) "DOWN"
             then PUD_DOWN else PUD_UP in
  setup_input W pin pull_mode tr =
  (match gpio_setup W tr pin IN pud with
   | None => Ret tt
   | Some e =>
       if is_ValueError_or_SystemError e
       then Raise (GPIOInputException e) else Raise e
   end,
   tr ++ [EvSetup pin IN pud]).
Proof.
  unfold setup_input, GPIO_setup. run_calls.
  destruct (gpio_setup W tr pin IN _) as [e|]; try reflexivity.
  destruct (is_ValueError_or_SystemError e); reflexivity.
Qed.

Lemma edge_detect_eq W pin cb bounce edge tr :
  let b := default 0 bounce in
  let ed := default FALLING edge in
  edge_detect W pin cb bounce edge tr =
  (match gpio_add_event_detect W tr pin ed cb b with
   | None => Ret tt
   | Some e =>
       if is_RuntimeError e then Raise (GPIOInputException e) else Raise e
   end,
   tr ++ [EvAddEventDetect pin ed cb b]).
Proof.
  unfold edge_detect, GPIO_add_event_detect. run_calls.
  destruct (gpio_add_event_detect W tr pin _ cb _) as [e|]; try reflexivity.
  destruct (is_RuntimeError e); reflexivity.
Qed.

Lemma read_input_eq W pin on_state tr :
  read_input W pin on_state tr =
  (match gpio_input W tr pin with
   | inr raw => Ret (Gpio_States_is raw (default LOW on_state))
   | inl e => Raise e
   end,
   tr ++ [EvInput pin]).
Proof.
  unfold read_input, GPIO_input. run_calls.
  destruct (gpio_input W tr pin); reflexivity.
Qed.

Lemma Gpio_States_is_eq (a b : Gpio_States) :
  Gpio_States_is a b = true <-> a = b.
Proof. destruct a, b; simpl; split; congruence. Qed.

Lemma length4_inv (s : string) :
  String.length s = 4%nat ->
  exists a b c d, s = String a (String b (String c (String d EmptyString))).
Proof.
  destruct s as [|a [|b [|c [|d [|e s]]]]]; simpl; try discriminate.
  intros _. by exists a, b, c, d.
Qed.

Lemma normalize_pin_other (pin : string) :
  String.length pin <> 4%nat -> normalize_pin pin = pin.
Proof.
  intros H. unfold normalize_pin.
  destruct (Nat.eqb_spec (String.length pin) 4); [contradiction | reflexivity].
Qed.

(** The construction of a unit, stage by stage. *)
Lemma init_eq K W pin cb kwargs tr :
  let mode := Some (resolved_mode K kwargs) in
  let t1 := tr ++ [EvRun (config_argv K pin mode) 1] in
  let t2 := t1 ++ [EvGetRunningLoop] in
  let t3 := t2 ++ [EvSetup pin IN PUD_UP] in
  __init__ K W pin cb kwargs tr =
  match fst (configure_pin K W pin mode tr) with
  | Raise e => (Raise e, t1)
  | Ret _ =>
      match running_loop W t1 with
      | None => (Raise (RuntimeError "no running event loop"), t2)
      | Some l =>
          match fst (setup_input W pin None t2) with
          | Raise e => (Raise e, t3)
          | Ret _ =>
              (Ret {| _pin := pin;
                      _bounce_time :=
                        default (PInt 25)
                          (rest_pin_of K kwargs !! "bounce_time");
                      _loop := l; _press_callback := cb |}, t3)
          end
      end
  end.
Proof.
  intros mode t1 t2 t3. unfold __init__.
  fold (resolved_mode K kwargs). fold mode.
  unfold bind at 1. rewrite configure_pin_eq. fold t1. cbn [fst].
  destruct (process W tr _) as [ms rc| |e]; try reflexivity.
  destruct (ms <=? 1000); [|reflexivity].
  unfold bind at 1, get_running_loop, call. fold t2.
  destruct (running_loop W t1) as [l|]; [|reflexivity].
  unfold bind at 1. rewrite setup_input_eq. cbn [default String.eqb fst].
  fold t3.
  destruct (gpio_setup W t2 pin IN PUD_UP) as [e|]; [|reflexivity].
  destruct (is_ValueError_or_SystemError e); reflexivity.
Qed.

(** ** Pin Configurator *)

Example normalize_P8_7 : normalize_pin "P8_7" = "P8_07".
Proof. reflexivity. Qed.

Example normalize_P9_12 : normalize_pin "P9_12" = "P9_12".
Proof. reflexivity. Qed.

Example normalize_short : normalize_pin "P8" = "P8".
Proof. reflexivity. Qed.

(** C1.  A pin identifier of length 4, [a b c d], reaches the external
    configuration command as [a b c 0 d]: the separator ["0"] is inserted at
    offset 3, the first three characters and the last one are kept.  A pin
    identifier of any other length reaches the command as it is. *)
Theorem configure_pin_normalizes_pin K W mode tr (pin : string) :
  (String.length pin = 4%nat ->
   exists a b c d,
     pin = String a (String b (String c (String d EmptyString))) /\
     snd (configure_pin K W pin mode tr) =
     tr ++ [EvRun [PStr (CONFIG_PIN K);
                   PStr (String a (String b (String c
                           (String "0" (String d EmptyString)))));
                   default (PStr (GPIO_STR K)) mode] 1])
  /\
  (String.length pin <> 4%nat ->
   snd (configure_pin K W pin mode tr) =
   tr ++ [EvRun [PStr (CONFIG_PIN K); PStr pin;
                 default (PStr (GPIO_STR K)) mode] 1]).
Proof.
  rewrite configure_pin_eq. cbn [snd]. unfold config_argv. split.
  - intros H4. destruct (length4_inv pin H4) as (a & b & c & d & ->).
    exists a, b, c, d. split; reflexivity.
  - intros Hn. by rewrite normalize_pin_other.
Qed.

Lemma configure_pin_normalizes_pin_witness :
  (String.length "P8_7" = 4%nat /\
   exists a b c d,
     "P8_7" = String a (String b (String c (String d EmptyString))) /\
     snd (configure_pin bench_consts board_ok "P8_7" None []) =
     [] ++ [EvRun [PStr "config-pin";
                   PStr (String a (String b (String c
                           (String "0" (String d EmptyString)))));
                   PStr "GPIO"] 1])
  /\
  (String.length "P9_12" <> 4%nat /\
   snd (configure_pin bench_consts board_ok "P9_12" None []) =
   [] ++ [EvRun [PStr "config-pin"; PStr "P9_12"; PStr "GPIO"] 1]).
Proof.
  split.
  - split; [reflexivity|].
    apply (proj1 (configure_pin_normalizes_pin bench_consts board_ok None []
                    "P8_7")).
    reflexivity.
  - split; [discriminate|].
    apply (proj2 (configure_pin_normalizes_pin bench_consts board_ok None []
                    "P9_12")).
    discriminate.
Defined.

(** C2, as the spec has it, fails: every failure of the external command,
    a non-zero exit status included, would raise.  The command of
    [board_exit1] ends at once with status 1 and [configure_pin] returns
    normally. *)
Lemma nonzero_exit_is_not_raised :
  ~ (forall K W pin mode tr ms rc,
       process W tr (config_argv K pin mode) = Exits ms rc ->
       rc <> 0 ->
       exists e, fst (configure_pin K W pin mode tr) = Raise e).
Proof.
  intros H.
  destruct (H bench_consts board_exit1 "P8_7" None [] 20 1 eq_refl
              ltac:(discriminate)) as [e He].
  discriminate He.
Qed.

(** With a non-zero exit status the construction goes on to the input
    set-up. *)
Example init_after_nonzero_exit :
  __init__ bench_consts board_exit1 "P8_7" 3%nat ∅ [] =
  (Ret {| _pin := "P8_7"; _bounce_time := PInt 25; _loop := 7%nat;
          _press_callback := 3%nat |},
   [EvRun [PStr "config-pin"; PStr "P8_07"; PStr "GPIO"] 1;
    EvGetRunningLoop; EvSetup "P8_7" IN PUD_UP]).
Proof. reflexivity. Qed.

(** C2, amended.  [configure_pin] makes one call of the external command
    with a timeout of 1 second.  A command still running after that second
    raises [TimeoutExpired] to the caller, and a command that cannot be
    started raises its own error; the exit status is not looked at, so a
    command that ends in time returns normally whatever its status.  When
    [configure_pin] raises during the construction of a unit, the
    construction raises the same exception and makes no further call: no
    input set-up is attempted. *)
Theorem configure_pin_timeout K W pin mode tr :
  let argv := config_argv K pin mode in
  snd (configure_pin K W pin mode tr) = tr ++ [EvRun argv 1]
  /\ (forall ms rc, process W tr argv = Exits ms rc -> ms <= 1000 ->
        fst (configure_pin K W pin mode tr) = Ret tt)
  /\ (forall ms rc, process W tr argv = Exits ms rc -> 1000 < ms ->
        fst (configure_pin K W pin mode tr) = Raise (TimeoutExpired argv 1))
  /\ (process W tr argv = Hangs ->
        fst (configure_pin K W pin mode tr) = Raise (TimeoutExpired argv 1))
  /\ (forall e, process W tr argv = SpawnFails e ->
        fst (configure_pin K W pin mode tr) = Raise e)
  /\ (forall e cb kwargs,
        mode = Some (resolved_mode K kwargs) ->
        fst (configure_pin K W pin mode tr) = Raise e ->
        __init__ K W pin cb kwargs tr = (Raise e, tr ++ [EvRun argv 1])).
Proof.
  intros argv. subst argv. repeat split.
  - by rewrite configure_pin_eq.
  - intros ms rc Hp Hms. rewrite configure_pin_eq, Hp. cbn [fst].
    destruct (Z.leb_spec ms 1000); [reflexivity | lia].
  - intros ms rc Hp Hms. rewrite configure_pin_eq, Hp. cbn [fst].
    destruct (Z.leb_spec ms 1000); [lia | reflexivity].
  - intros Hp. by rewrite configure_pin_eq, Hp.
  - intros e Hp. by rewrite configure_pin_eq, Hp.
  - intros e cb kwargs -> He. rewrite init_eq, He. reflexivity.
Qed.

Lemma configure_pin_timeout_witness :
  process board_slow [] (config_argv bench_consts "P8_7" None) = Exits 1500 0
  /\ 1000 < 1500
  /\ fst (configure_pin bench_consts board_slow "P8_7" None []) =
     Raise (TimeoutExpired (config_argv bench_consts "P8_7" None) 1).
Proof.
  split; [reflexivity|]. split; [lia|].
  apply (proj1 (proj2 (proj2
           (configure_pin_timeout bench_consts board_slow "P8_7" None [])))
         1500 0); [reflexivity | lia].
Defined.

Example init_after_timeout :
  __init__ bench_consts board_slow "P8_7" 3%nat ∅ [] =
  (Raise (TimeoutExpired [PStr "config-pin"; PStr "P8_07"; PStr "GPIO"] 1),
   [EvRun [PStr "config-pin"; PStr "P8_07"; PStr "GPIO"] 1]).
Proof. reflexivity. Qed.

(** ** Input Reader *)

(** C3.  When the driver reports the raw level [raw] for the pin,
    [read_input] returns [true] if and only if [raw] is the active level it
    was given: with LOW active a raw HIGH gives [false] and a raw LOW gives
    [true], and the other way round with HIGH active. *)
Theorem read_input_active_level W pin (on_state raw : Gpio_States) tr :
  gpio_input W tr pin = inr raw ->
  exists b,
    read_input W pin (Some on_state) tr = (Ret b, tr ++ [EvInput pin])
    /\ (b = true <-> raw = on_state)
    /\ (on_state = LOW -> raw = HIGH -> b = false)
    /\ (on_state = LOW -> raw = LOW -> b = true)
    /\ (on_state = HIGH -> raw = LOW -> b = false)
    /\ (on_state = HIGH -> raw = HIGH -> b = true).
Proof.
  intros Hraw. exists (Gpio_States_is raw on_state).
  rewrite read_input_eq, Hraw. cbn [default].
  split; [reflexivity|]. split; [apply Gpio_States_is_eq|].
  repeat split; intros -> ->; reflexivity.
Qed.

Lemma read_input_active_level_witness :
  gpio_input board_ok [] "P8_7" = inr HIGH /\
  exists b,
    read_input board_ok "P8_7" (Some LOW) [] = (Ret b, [] ++ [EvInput "P8_7"])
    /\ (b = true <-> HIGH = LOW)
    /\ (LOW = LOW -> HIGH = HIGH -> b = false)
    /\ (LOW = LOW -> HIGH = LOW -> b = true)
    /\ (LOW = HIGH -> HIGH = LOW -> b = false)
    /\ (LOW = HIGH -> HIGH = HIGH -> b = true).
Proof.
  split; [reflexivity|].
  apply (read_input_active_level board_ok "P8_7" LOW HIGH []). reflexivity.
Defined.

Lemma exn_neq_wrapped (e : exn) : e <> GPIOInputException e.
Proof. induction e; congruence. Qed.

(** C5, as the spec has it, fails: every failure of the driver's set-up would
    come back wrapped in the typed input error.  A [RuntimeError] of the
    driver is of neither class the handler names and leaves [setup_input] as
    it is. *)
Lemma setup_input_other_error_not_wrapped :
  ~ (forall W pin pull_mode tr e,
       gpio_setup W tr pin IN
         (if String.eqb (default "UP" pull_mode) "DOWN"
          then PUD_DOWN else PUD_UP) = Some e ->
       fst (setup_input W pin pull_mode tr) = Raise (GPIOInputException e)).
Proof.
  intros H.
  specialize (H (board_setup_fails (RuntimeError "driver busy")) "P8_7"
                None [] (RuntimeError "driver busy") eq_refl).
  discriminate H.
Qed.

(** C5, amended.  [setup_input] sets the pin up as an input with the pull
    bias translated to the driver's enumeration (UP to pull-up, DOWN to
    pull-down).  It returns normally if and only if the driver's set-up
    succeeds.  A [ValueError] or [SystemError] of the driver is raised as the
    typed input error wrapping it, and only those are: any other driver
    exception reaches the caller unchanged.  None is ignored. *)
Theorem setup_input_wraps_driver_error W pin pull_mode tr :
  let pud := if String.eqb (default "UP" pull_mode) "DOWN"
             then PUD_DOWN else PUD_UP in
  snd (setup_input W pin pull_mode tr) = tr ++ [EvSetup pin IN pud]
  /\ (pull_mode = Some "UP" -> pud = PUD_UP)
  /\ (pull_mode = Some "DOWN" -> pud = PUD_DOWN)
  /\ (fst (setup_input W pin pull_mode tr) = Ret tt <->
      gpio_setup W tr pin IN pud = None)
  /\ (forall e, gpio_setup W tr pin IN pud = Some e ->
        is_ValueError_or_SystemError e = true ->
        fst (setup_input W pin pull_mode tr) = Raise (GPIOInputException e))
  /\ (forall e, gpio_setup W tr pin IN pud = Some e ->
        is_ValueError_or_SystemError e = false ->
        fst (setup_input W pin pull_mode tr) = Raise e)
  /\ (forall e, gpio_setup W tr pin IN pud = Some e ->
        (fst (setup_input W pin pull_mode tr) = Raise (GPIOInputException e)
         <-> is_ValueError_or_SystemError e = true)).
Proof.
  intros pud. rewrite setup_input_eq. fold pud. cbn [fst snd].
  split; [reflexivity|].
  split; [intros ->; reflexivity|].
  split; [intros ->; reflexivity|].
  split.
  { destruct (gpio_setup W tr pin IN pud) as [e|].
    - destruct (is_ValueError_or_SystemError e); split; discriminate.
    - split; reflexivity. }
  split; [intros e -> ->; reflexivity|].
  split; [intros e -> ->; reflexivity|].
  intros e ->. destruct (is_ValueError_or_SystemError e).
  - split; reflexivity.
  - split; [|discriminate]. intros H. inversion H as [H'].
    by apply exn_neq_wrapped in H'.
Qed.

Lemma setup_input_wraps_driver_error_witness :
  gpio_setup (board_setup_fails (ValueError "Invalid channel")) [] "P8_7" IN
    PUD_UP = Some (ValueError "Invalid channel")
  /\ is_ValueError_or_SystemError (ValueError "Invalid channel") = true
  /\ fst (setup_input (board_setup_fails (ValueError "Invalid channel"))
            "P8_7" None []) =
     Raise (GPIOInputException (ValueError "Invalid channel")).
Proof.
  split; [reflexivity|]. split; [reflexivity|].
  apply (proj1 (proj2 (proj2 (proj2 (proj2
           (setup_input_wraps_driver_error
              (board_setup_fails (ValueError "Invalid channel"))
              "P8_7" None [])))))); reflexivity.
Defined.

(** C9.  Every pull mode other than exactly ["DOWN"] (lowercase spellings
    and arbitrary strings as well as ["UP"]) behaves as ["UP"]: the driver is
    asked for the pull-up bias, and the call returns normally whenever the
    driver accepts it, so the value itself is never rejected.  Only ["DOWN"]
    asks for the pull-down bias. *)
Theorem setup_input_pull_mode W pin (pull_mode : string) tr :
  (pull_mode <> "DOWN" ->
   setup_input W pin (Some pull_mode) tr = setup_input W pin (Some "UP") tr
   /\ snd (setup_input W pin (Some pull_mode) tr) =
      tr ++ [EvSetup pin IN PUD_UP]
   /\ (gpio_setup W tr pin IN PUD_UP = None ->
       fst (setup_input W pin (Some pull_mode) tr) = Ret tt))
  /\
  (pull_mode = "DOWN" ->
   snd (setup_input W pin (Some pull_mode) tr) =
   tr ++ [EvSetup pin IN PUD_DOWN]).
Proof.
  split.
  - intros Hne. rewrite !setup_input_eq. cbn [default from_option id fst snd].
    apply String.eqb_neq in Hne. rewrite Hne.
    change ("UP" =? "DOWN")%string with false. cbn iota.
    split; [reflexivity|]. split; [reflexivity|].
    intros ->. reflexivity.
  - intros ->. rewrite setup_input_eq. reflexivity.
Qed.

Lemma setup_input_pull_mode_witness :
  "down" <> "DOWN" /\
  setup_input board_ok "P8_7" (Some "down") [] =
  setup_input board_ok "P8_7" (Some "UP") [] /\
  snd (setup_input board_ok "P8_7" (Some "down") []) =
  [] ++ [EvSetup "P8_7" IN PUD_UP] /\
  (gpio_setup board_ok [] "P8_7" IN PUD_UP = None ->
   fst (setup_input board_ok "P8_7" (Some "down") []) = Ret tt).
Proof.
  split; [discriminate|].
  apply (proj1 (setup_input_pull_mode board_ok "P8_7" "down" [])).
  discriminate.
Defined.

(** ** Edge Detector *)

(** C6, as the spec has it, fails: every registration failure of the driver
    would come back as the typed input error.  When the driver rejects the
    call with a [ValueError], [edge_detect] raises that [ValueError]. *)
Lemma edge_detect_other_error_not_wrapped :
  ~ (forall W pin cb bounce edge tr e,
       gpio_add_event_detect W tr pin (default FALLING edge) cb
         (default 0 bounce) = Some e ->
       fst (edge_detect W pin cb bounce edge tr) =
       Raise (GPIOInputException e)).
Proof.
  intros H.
  specialize (H (board_arm_fails (ValueError "invalid edge")) "P8_7" 3%nat
                (Some 25) (Some BOTH) [] (ValueError "invalid edge") eq_refl).
  discriminate H.
Qed.

(** C6, amended.  Edge arming registers with the driver's interrupt
    facility and passes the requested edge, bounce window and callback
    through.  It returns normally if and only if the registration succeeds.
    A [RuntimeError] of the driver is raised as the typed input error
    wrapping it, and only that class is: any other driver exception reaches
    the caller unchanged.  None is swallowed. *)
Theorem edge_detect_wraps_runtime_error W pin cb (bounce : Z)
    (edge : Gpio_Edges) tr :
  snd (edge_detect W pin cb (Some bounce) (Some edge) tr) =
  tr ++ [EvAddEventDetect pin edge cb bounce]
  /\ (fst (edge_detect W pin cb (Some bounce) (Some edge) tr) = Ret tt <->
      gpio_add_event_detect W tr pin edge cb bounce = None)
  /\ (forall e, gpio_add_event_detect W tr pin edge cb bounce = Some e ->
        is_RuntimeError e = true ->
        fst (edge_detect W pin cb (Some bounce) (Some edge) tr) =
        Raise (GPIOInputException e))
  /\ (forall e, gpio_add_event_detect W tr pin edge cb bounce = Some e ->
        is_RuntimeError e = false ->
        fst (edge_detect W pin cb (Some bounce) (Some edge) tr) = Raise e).
Proof.
  rewrite edge_detect_eq. cbn [default from_option id fst snd].
  split; [reflexivity|]. split.
  { destruct (gpio_add_event_detect W tr pin edge cb bounce) as [e|].
    - destruct (is_RuntimeError e); split; discriminate.
    - split; reflexivity. }
  split; intros e -> ->; reflexivity.
Qed.

Lemma edge_detect_wraps_runtime_error_witness :
  gpio_add_event_detect (board_arm_fails (RuntimeError "conflicting edge"))
    [] "P8_7" FALLING 3%nat 25 = Some (RuntimeError "conflicting edge")
  /\ is_RuntimeError (RuntimeError "conflicting edge") = true
  /\ fst (edge_detect (board_arm_fails (RuntimeError "conflicting edge"))
            "P8_7" 3%nat (Some 25) (Some FALLING) []) =
     Raise (GPIOInputException (RuntimeError "conflicting edge")).
Proof.
  split; [reflexivity|]. split; [reflexivity|].
  apply (proj1 (proj2 (proj2
           (edge_detect_wraps_runtime_error
              (board_arm_fails (RuntimeError "conflicting edge"))
              "P8_7" 3%nat 25 FALLING [])))); reflexivity.
Defined.

(** ** GPIO Input Unit *)

Lemma init_eq_stages K W pin cb kwargs tr :
  let mode := Some (resolved_mode K kwargs) in
  let st := init_stages K pin kwargs in
  __init__ K W pin cb kwargs tr =
  match fst (configure_pin K W pin mode tr) with
  | Raise e => (Raise e, tr ++ take 1 st)
  | Ret _ =>
      match running_loop W (tr ++ take 1 st) with
      | None => (Raise (RuntimeError "no running event loop"),
                 tr ++ take 2 st)
      | Some l =>
          match fst (setup_input W pin None (tr ++ take 2 st)) with
          | Raise e => (Raise e, tr ++ st)
          | Ret _ =>
              (Ret {| _pin := pin;
                      _bounce_time :=
                        default (PInt 25)
                          (rest_pin_of K kwargs !! "bounce_time");
                      _loop := l; _press_callback := cb |}, tr ++ st)
          end
      end
  end.
Proof.
  intros mode st. rewrite init_eq. fold mode.
  unfold st, init_stages. cbn [take]. fold mode.
  rewrite <- !app_assoc. cbn [app]. reflexivity.
Qed.

(** What a returned unit says about the stages that produced it. *)
Lemma init_ret_inv K W pin cb kwargs tr u :
  let mode := Some (resolved_mode K kwargs) in
  let st := init_stages K pin kwargs in
  fst (__init__ K W pin cb kwargs tr) = Ret u ->
  snd (__init__ K W pin cb kwargs tr) = tr ++ st /\
  fst (configure_pin K W pin mode tr) = Ret tt /\
  fst (setup_input W pin None (tr ++ take 2 st)) = Ret tt /\
  _pin u = pin /\ _press_callback u = cb.
Proof.
  intros mode st. rewrite (init_eq_stages K W pin cb kwargs tr).
  fold mode. fold st.
  destruct (fst (configure_pin K W pin mode tr)) as [[]|e];
    [|discriminate].
  destruct (running_loop W (tr ++ take 1 st)) as [l|]; [|discriminate].
  destruct (fst (setup_input W pin None (tr ++ take 2 st))) as [[]|e];
    [|discriminate].
  cbn [fst snd]. intros [= <-]. repeat split; reflexivity.
Qed.

(** The mode and the bounce time of a construction, read off the keyword
    arguments.  Without a record the default record holds the mode key
    only. *)
Lemma resolved_mode_spec K (kwargs : gmap string (gmap string pyval)) :
  resolved_mode K kwargs =
  match kwargs !! "rest_pin" with
  | Some r => default (PStr (GPIO_STR K)) (r !! GPIO_MODE K)
  | None => PStr (GPIO_STR K)
  end.
Proof.
  unfold resolved_mode, rest_pin_of.
  destruct (kwargs !! "rest_pin") as [r|]; cbn [default from_option id];
    [reflexivity|].
  by rewrite lookup_singleton_eq.
Qed.

Lemma resolved_bounce_time_spec K (kwargs : gmap string (gmap string pyval)) :
  default (PInt 25) (rest_pin_of K kwargs !! "bounce_time") =
  match kwargs !! "rest_pin" with
  | Some r => default (PInt 25) (r !! "bounce_time")
  | None =>
      if decide (GPIO_MODE K = "bounce_time") then PStr (GPIO_STR K)
      else PInt 25
  end.
Proof.
  unfold rest_pin_of.
  destruct (kwargs !! "rest_pin") as [r|]; cbn [default from_option id];
    [reflexivity|].
  rewrite lookup_singleton. by destruct (decide (GPIO_MODE K = "bounce_time")).
Qed.

(** A construction as one case analysis on the answers of the command, the
    event loop and the driver. *)
Lemma init_cases K W pin cb kwargs tr :
  let mode :=
    match kwargs !! "rest_pin" with
    | Some r => default (PStr (GPIO_STR K)) (r !! GPIO_MODE K)
    | None => PStr (GPIO_STR K)
    end in
  let bounce_time :=
    match kwargs !! "rest_pin" with
    | Some r => default (PInt 25) (r !! "bounce_time")
    | None =>
        if decide (GPIO_MODE K = "bounce_time") then PStr (GPIO_STR K)
        else PInt 25
    end in
  let argv := [PStr (CONFIG_PIN K); PStr (normalize_pin pin); mode] in
  let t1 := tr ++ [EvRun argv 1] in
  let t2 := tr ++ [EvRun argv 1; EvGetRunningLoop] in
  let t3 := tr ++ [EvRun argv 1; EvGetRunningLoop; EvSetup pin IN PUD_UP] in
  __init__ K W pin cb kwargs tr =
  match process W tr argv with
  | SpawnFails e => (Raise e, t1)
  | Hangs => (Raise (TimeoutExpired argv 1), t1)
  | Exits ms rc =>
      if ms <=? 1000 then
        match running_loop W t1 with
        | None => (Raise (RuntimeError "no running event loop"), t2)
        | Some l =>
            match gpio_setup W t2 pin IN PUD_UP with
            | Some e =>
                (Raise (if is_ValueError_or_SystemError e
                        then GPIOInputException e else e), t3)
            | None =>
                (Ret {| _pin := pin; _bounce_time := bounce_time;
                        _loop := l; _press_callback := cb |}, t3)
            end
        end
      else (Raise (TimeoutExpired argv 1), t1)
  end.
Proof.
  intros mode bounce_time argv t1 t2 t3.
  rewrite init_eq, configure_pin_eq. unfold config_argv.
  cbn [default from_option id fst].
  rewrite resolved_mode_spec, resolved_bounce_time_spec.
  fold mode bounce_time argv t1.
  replace (t1 ++ [EvGetRunningLoop]) with t2
    by (unfold t1, t2; by rewrite <- app_assoc).
  replace (t2 ++ [EvSetup pin IN PUD_UP]) with t3
    by (unfold t2, t3; by rewrite <- app_assoc).
  destruct (process W tr argv) as [ms rc| |e]; try reflexivity.
  destruct (ms <=? 1000); [|reflexivity].
  destruct (running_loop W t1) as [l|]; [|reflexivity].
  rewrite setup_input_eq. cbn [default from_option id fst].
  change (String.eqb "UP" "DOWN") with false. cbv iota.
  destruct (gpio_setup W t2 pin IN PUD_UP) as [e|]; [|reflexivity].
  destruct (is_ValueError_or_SystemError e); reflexivity.
Qed.

(** C4, as the spec has it, fails: any failure of the pin configuration
    would abort the construction.  The configuration command of
    [board_exit1] fails with exit status 1 and the construction returns a
    unit all the same. *)
Lemma init_survives_nonzero_exit :
  ~ (forall K W pin cb kwargs tr ms rc,
       process W tr
         [PStr (CONFIG_PIN K); PStr (normalize_pin pin);
          resolved_mode K kwargs] = Exits ms rc ->
       rc <> 0 ->
       exists e, fst (__init__ K W pin cb kwargs tr) = Raise e).
Proof.
  intros H.
  destruct (H bench_consts board_exit1 "P8_7" 3%nat ∅ [] 20 1 eq_refl
              ltac:(discriminate)) as [e He].
  discriminate He.
Qed.

(** C4, amended.  A construction resolves the electrical mode and the bounce
    time from the configuration record (the record's own value where it has
    the key, the default otherwise) and then calls, in this order,
    [configure_pin] with that mode, the event-loop lookup and [setup_input];
    it never registers an edge.  An exception of [configure_pin] (the
    timeout of the command, or its failure to start) ends the construction
    with that exception before any input set-up, and an exception of
    [setup_input] (the typed input error around a [ValueError] or
    [SystemError] of the driver, any other driver exception as it is) ends
    it as well.  The exit status of the command is no failure: whatever it
    is, the construction goes on.  A unit, holding the pin, the resolved
    bounce time and the callback, comes back exactly when every stage has
    succeeded. *)
Theorem init_in_order K W pin cb kwargs tr :
  let mode :=
    match kwargs !! "rest_pin" with
    | Some r => default (PStr (GPIO_STR K)) (r !! GPIO_MODE K)
    | None => PStr (GPIO_STR K)
    end in
  let bounce_time :=
    match kwargs !! "rest_pin" with
    | Some r => default (PInt 25) (r !! "bounce_time")
    | None =>
        if decide (GPIO_MODE K = "bounce_time") then PStr (GPIO_STR K)
        else PInt 25
    end in
  let argv := [PStr (CONFIG_PIN K); PStr (normalize_pin pin); mode] in
  let stages := [EvRun argv 1; EvGetRunningLoop; EvSetup pin IN PUD_UP] in
  (exists n, (1 <= n <= 3)%nat /\
     snd (__init__ K W pin cb kwargs tr) = tr ++ take n stages)
  /\ (forall ev, In ev (snd (__init__ K W pin cb kwargs tr)) ->
        is_arming ev = true -> In ev tr)
  /\ (forall ms rc, process W tr argv = Exits ms rc -> 1000 < ms ->
        __init__ K W pin cb kwargs tr =
        (Raise (TimeoutExpired argv 1), tr ++ take 1 stages))
  /\ (process W tr argv = Hangs ->
        __init__ K W pin cb kwargs tr =
        (Raise (TimeoutExpired argv 1), tr ++ take 1 stages))
  /\ (forall e, process W tr argv = SpawnFails e ->
        __init__ K W pin cb kwargs tr = (Raise e, tr ++ take 1 stages))
  /\ (forall ms rc, process W tr argv = Exits ms rc -> ms <= 1000 ->
        (running_loop W (tr ++ take 1 stages) = None ->
         __init__ K W pin cb kwargs tr =
         (Raise (RuntimeError "no running event loop"),
          tr ++ take 2 stages))
        /\ (forall l, running_loop W (tr ++ take 1 stages) = Some l ->
              (forall e,
                 gpio_setup W (tr ++ take 2 stages) pin IN PUD_UP = Some e ->
                 __init__ K W pin cb kwargs tr =
                 (Raise (if is_ValueError_or_SystemError e
                         then GPIOInputException e else e), tr ++ stages))
              /\ (gpio_setup W (tr ++ take 2 stages) pin IN PUD_UP = None ->
                  __init__ K W pin cb kwargs tr =
                  (Ret {| _pin := pin; _bounce_time := bounce_time;
                          _loop := l; _press_callback := cb |},
                   tr ++ stages))))
  /\ (forall u, fst (__init__ K W pin cb kwargs tr) = Ret u ->
        u = {| _pin := pin; _bounce_time := bounce_time;
               _loop := _loop u; _press_callback := cb |}
        /\ snd (__init__ K W pin cb kwargs tr) = tr ++ stages
        /\ (exists ms rc, process W tr argv = Exits ms rc /\ ms <= 1000)
        /\ running_loop W (tr ++ take 1 stages) = Some (_loop u)
        /\ gpio_setup W (tr ++ take 2 stages) pin IN PUD_UP = None).
Proof.
  intros mode bounce_time argv stages.
  rewrite (init_cases K W pin cb kwargs tr).
  fold mode bounce_time argv. subst stages. cbn [take].
  refine (conj _ (conj _ (conj _ (conj _ (conj _ (conj _ _)))))).
  - destruct (process W tr argv) as [ms rc| |e];
      [|exists 1%nat; split; [lia | reflexivity]..].
    destruct (ms <=? 1000);
      [|exists 1%nat; split; [lia | reflexivity]].
    destruct (running_loop W _) as [l|];
      [|exists 2%nat; split; [lia | reflexivity]].
    exists 3%nat. split; [lia|].
    destruct (gpio_setup W _ pin IN PUD_UP); reflexivity.
  - intros ev Hin Harm.
    assert (Hst : forall n,
              In ev (tr ++ take n [EvRun argv 1; EvGetRunningLoop;
                                   EvSetup pin IN PUD_UP]) -> In ev tr).
    { intros n Hn. apply in_app_or in Hn as [Hn|Hn]; [exact Hn|].
      assert (Hall : In ev [EvRun argv 1; EvGetRunningLoop;
                            EvSetup pin IN PUD_UP]).
      { destruct n as [|[|[|[|n]]]]; cbn in Hn; cbn; tauto. }
      cbn in Hall. destruct Hall as [<-|[<-|[<-|[]]]]; discriminate Harm. }
    destruct (process W tr argv) as [ms rc| |e];
      [|exact (Hst 1%nat Hin)..].
    destruct (ms <=? 1000); [|exact (Hst 1%nat Hin)].
    destruct (running_loop W _) as [l|]; [|exact (Hst 2%nat Hin)].
    destruct (gpio_setup W _ pin IN PUD_UP); exact (Hst 3%nat Hin).
  - intros ms rc -> Hms.
    destruct (Z.leb_spec ms 1000); [lia | reflexivity].
  - intros ->. reflexivity.
  - intros e ->. reflexivity.
  - intros ms rc -> Hms.
    destruct (Z.leb_spec ms 1000); [|lia].
    split; [intros ->; reflexivity|].
    intros l ->. split; [intros e ->; reflexivity | intros ->; reflexivity].
  - intros u.
    destruct (process W tr argv) as [ms rc| |e]; [|discriminate..].
    destruct (Z.leb_spec ms 1000); [|discriminate].
    destruct (running_loop W _) as [l|]; [|discriminate].
    destruct (gpio_setup W _ pin IN PUD_UP); [discriminate|].
    cbn [fst snd]. intros [= <-]. cbn [_loop].
    repeat split; try reflexivity. by exists ms, rc.
Qed.

Lemma init_in_order_witness :
  process board_exit1 []
    [PStr "config-pin"; PStr "P8_07"; PStr "gpio_pu"] = Exits 20 1
  /\ 20 <= 1000
  /\ running_loop board_exit1
       [EvRun [PStr "config-pin"; PStr "P8_07"; PStr "gpio_pu"] 1] =
     Some 7%nat
  /\ gpio_setup board_exit1
       [EvRun [PStr "config-pin"; PStr "P8_07"; PStr "gpio_pu"] 1;
        EvGetRunningLoop] "P8_7" IN PUD_UP = None
  /\ __init__ bench_consts board_exit1 "P8_7" 3%nat
       {[ "rest_pin" :=
            {[ "mode" := PStr "gpio_pu"; "bounce_time" := PInt 40 ]} ]} [] =
     (Ret {| _pin := "P8_7"; _bounce_time := PInt 40; _loop := 7%nat;
             _press_callback := 3%nat |},
      [EvRun [PStr "config-pin"; PStr "P8_07"; PStr "gpio_pu"] 1;
       EvGetRunningLoop; EvSetup "P8_7" IN PUD_UP]).
Proof.
  split; [reflexivity|]. split; [lia|]. split; [reflexivity|].
  split; [reflexivity|].
  pose proof (init_in_order bench_consts board_exit1 "P8_7" 3%nat
                {[ "rest_pin" :=
                     {[ "mode" := PStr "gpio_pu";
                        "bounce_time" := PInt 40 ]} ]} []) as H.
  cbv zeta in H.
  destruct H as (_ & _ & _ & _ & _ & H & _).
  destruct (H 20 1) as [_ Hl]; [reflexivity | lia |].
  destruct (Hl 7%nat) as [_ Hok]; [reflexivity|].
  rewrite Hok; [|reflexivity]. reflexivity.
Defined.

Example init_setup_failure :
  __init__ bench_consts (board_setup_fails (ValueError "Invalid channel"))
    "P8_7" 3%nat ∅ [] =
  (Raise (GPIOInputException (ValueError "Invalid channel")),
   [EvRun [PStr "config-pin"; PStr "P8_07"; PStr "GPIO"] 1;
    EvGetRunningLoop; EvSetup "P8_7" IN PUD_UP]).
Proof. reflexivity. Qed.

(** C7, as the spec has it, fails: [is_pressed] would read with the active
    level the unit was configured with.  No reading of the keyword arguments
    as an active level that can come out HIGH is followed by [is_pressed]:
    on [board_ok], whose pins are at HIGH, every constructed unit answers
    [False], where a read with active level HIGH answers [True]. *)
Lemma is_pressed_level_not_configurable :
  ~ (exists level_of : gmap string (gmap string pyval) -> Gpio_States,
       (exists kwargs, level_of kwargs = HIGH) /\
       forall K W pin cb kwargs tr0 u tr1 tr,
         __init__ K W pin cb kwargs tr0 = (Ret u, tr1) ->
         is_pressed W u tr = read_input W pin (Some (level_of kwargs)) tr).
Proof.
  intros (level_of & (kw & Hhigh) & H).
  destruct (__init__ bench_consts board_ok "P8_7" 3%nat kw [])
    as [[u|e] tr1] eqn:Hinit.
  - specialize (H bench_consts board_ok "P8_7" 3%nat kw [] u tr1 [] Hinit).
    destruct (init_ret_inv bench_consts board_ok "P8_7" 3%nat kw [] u)
      as (_ & _ & _ & Hpin & _); [by rewrite Hinit|].
    unfold is_pressed in H. rewrite Hpin, Hhigh, !read_input_eq in H.
    discriminate H.
  - rewrite init_cases in Hinit. discriminate Hinit.
Qed.

(** C7, amended.  For a unit that a construction returned, whatever the
    keyword arguments were, [is_pressed] is [read_input] on the unit's pin
    with the active level LOW, the default of [read_input]: a unit holds no
    level of its own and none can be configured.  With the raw level [raw]
    reported by the driver the answer is [true] exactly when [raw] is LOW,
    and it is never the answer of a read with the active level HIGH.  This
    holds at every history after the construction, whether an edge
    registration was made in between or not. *)
Theorem is_pressed_reads_pin K W pin cb kwargs tr0 u tr1 :
  __init__ K W pin cb kwargs tr0 = (Ret u, tr1) ->
  forall tr,
    is_pressed W u tr = read_input W pin (Some LOW) tr
    /\ (forall raw, gpio_input W tr pin = inr raw ->
          (exists b, is_pressed W u tr = (Ret b, tr ++ [EvInput pin])
                     /\ (b = true <-> raw = LOW))
          /\ is_pressed W u tr <> read_input W pin (Some HIGH) tr)
    /\ (forall cb' bounce edge,
          is_pressed W u (snd (edge_detect W pin cb' bounce edge tr)) =
          read_input W pin (Some LOW)
            (snd (edge_detect W pin cb' bounce edge tr)))
    /\ (forall cb' bounce edge raw,
          gpio_input W (tr ++ [EvAddEventDetect pin (default FALLING edge)
                                 cb' (default 0 bounce)]) pin = inr raw ->
          fst (is_pressed W u (snd (edge_detect W pin cb' bounce edge tr))) =
          Ret (Gpio_States_is raw LOW)).
Proof.
  intros Hinit.
  assert (Hpin : _pin u = pin).
  { destruct (init_ret_inv K W pin cb kwargs tr0 u) as (_ & _ & _ & Hp & _);
      [by rewrite Hinit | exact Hp]. }
  intros tr. unfold is_pressed. rewrite Hpin.
  split; [reflexivity|]. split; [|split; [reflexivity|]].
  - intros raw Hraw. split.
    + exists (Gpio_States_is raw LOW).
      rewrite read_input_eq, Hraw. split; [reflexivity|].
      apply Gpio_States_is_eq.
    + rewrite !read_input_eq, Hraw. destruct raw; discriminate.
  - intros cb' bounce edge raw Hraw.
    rewrite edge_detect_eq. cbn [snd]. by rewrite read_input_eq, Hraw.
Qed.

Lemma is_pressed_reads_pin_witness :
  __init__ bench_consts board_ok "P8_7" 3%nat ∅ [] =
  (Ret {| _pin := "P8_7"; _bounce_time := PInt 25; _loop := 7%nat;
          _press_callback := 3%nat |},
   init_stages bench_consts "P8_7" ∅)
  /\ is_pressed board_ok
       {| _pin := "P8_7"; _bounce_time := PInt 25; _loop := 7%nat;
          _press_callback := 3%nat |} [] =
     read_input board_ok "P8_7" (Some LOW) [].
Proof.
  split; [reflexivity|].
  refine (proj1 (is_pressed_reads_pin bench_consts board_ok "P8_7" 3%nat ∅ []
                   {| _pin := "P8_7"; _bounce_time := PInt 25;
                      _loop := 7%nat; _press_callback := 3%nat |}
                   (init_stages bench_consts "P8_7" ∅) _ [])).
  reflexivity.
Defined.

Example is_pressed_high_is_not_pressed :
  fst (is_pressed board_ok
         {| _pin := "P8_7"; _bounce_time := PInt 25; _loop := 7%nat;
            _press_callback := 3%nat |} []) = Ret false.
Proof. reflexivity. Qed.

(** C8, as the spec has it, fails: 25 ms would be the bounce window of an
    edge arming that is given none.  [edge_detect] then registers with a
    bounce window of 0. *)
Lemma edge_detect_default_bounce_not_25 :
  ~ (forall W pin cb edge tr,
       snd (edge_detect W pin cb None edge tr) =
       tr ++ [EvAddEventDetect pin (default FALLING edge) cb 25]).
Proof.
  intros H. specialize (H board_ok "P8_7" 3%nat None []).
  discriminate H.
Qed.

(** C8, amended.  When the configuration record is absent, or present
    without the mode key, the unit configures the pin with the default mode
    [GPIO_STR]; when the record is absent, or present without the
    [bounce_time] key, a constructed unit has a bounce window of 25
    milliseconds.  Edge arming has a default of its own: given no bounce
    window it registers with 0, and given no edge with FALLING. *)
Theorem default_mode_and_bounce K W pin cb kwargs tr :
  ((kwargs !! "rest_pin" = None \/
    exists r, kwargs !! "rest_pin" = Some r /\ r !! GPIO_MODE K = None) ->
   resolved_mode K kwargs = PStr (GPIO_STR K) /\
   exists rest,
     snd (__init__ K W pin cb kwargs tr) =
     tr ++ EvRun [PStr (CONFIG_PIN K); PStr (normalize_pin pin);
                  PStr (GPIO_STR K)] 1 :: rest)
  /\
  (((kwargs !! "rest_pin" = None /\ GPIO_MODE K <> "bounce_time") \/
    exists r, kwargs !! "rest_pin" = Some r /\ r !! "bounce_time" = None) ->
   forall u tr',
     __init__ K W pin cb kwargs tr = (Ret u, tr') ->
     _bounce_time u = PInt 25)
  /\
  (forall pin' cb' edge tr',
     snd (edge_detect W pin' cb' None edge tr') =
     tr' ++ [EvAddEventDetect pin' (default FALLING edge) cb' 0]).
Proof.
  split; [|split].
  - intros Hrec.
    assert (Hmode : resolved_mode K kwargs = PStr (GPIO_STR K)).
    { unfold resolved_mode, rest_pin_of.
      destruct Hrec as [->|(r & -> & Hr)]; cbn [default from_option id].
      - by rewrite lookup_singleton_eq.
      - by rewrite Hr. }
    split; [exact Hmode|].
    rewrite (init_eq_stages K W pin cb kwargs tr).
    unfold init_stages, config_argv. rewrite Hmode.
    cbn [default from_option id take].
    destruct (fst (configure_pin K W pin _ tr)) as [[]|e];
      [|by exists []].
    destruct (running_loop W _) as [l|]; [|by eexists].
    destruct (fst (setup_input W pin None _)); by eexists.
  - intros Hrec u tr' Hinit.
    assert (Hb : rest_pin_of K kwargs !! "bounce_time" = None).
    { unfold rest_pin_of.
      destruct Hrec as [[-> Hne]|(r & -> & Hr)]; cbn [default from_option id].
      - by apply lookup_singleton_ne.
      - exact Hr. }
    rewrite (init_eq_stages K W pin cb kwargs tr) in Hinit.
    destruct (fst (configure_pin K W pin _ tr)) as [[]|e];
      [|discriminate].
    destruct (running_loop W _) as [l|]; [|discriminate].
    destruct (fst (setup_input W pin None _)) as [[]|e]; [|discriminate].
    injection Hinit as <- _. cbn [_bounce_time]. by rewrite Hb.
  - intros pin' cb' edge tr'. by rewrite edge_detect_eq.
Qed.

Lemma default_mode_and_bounce_witness :
  ((∅ : gmap string (gmap string pyval)) !! "rest_pin" = None /\
   GPIO_MODE bench_consts <> "bounce_time")
  /\ __init__ bench_consts board_ok "P8_7" 3%nat ∅ [] =
     (Ret {| _pin := "P8_7"; _bounce_time := PInt 25; _loop := 7%nat;
             _press_callback := 3%nat |},
      init_stages bench_consts "P8_7" ∅)
  /\ _bounce_time {| _pin := "P8_7"; _bounce_time := PInt 25;
                     _loop := 7%nat; _press_callback := 3%nat |} = PInt 25.
Proof.
  split; [split; [reflexivity | discriminate]|].
  split; [reflexivity|].
  refine (proj1 (proj2
            (default_mode_and_bounce bench_consts board_ok "P8_7" 3%nat ∅ []))
          (or_introl (conj _ _))
          _ (init_stages bench_consts "P8_7" ∅) _).
  - reflexivity.
  - discriminate.
  - reflexivity.
Defined.

Example init_record_without_keys :
  __init__ bench_consts board_ok "P8_7" 3%nat {[ "rest_pin" := ∅ ]} [] =
  (Ret {| _pin := "P8_7"; _bounce_time := PInt 25; _loop := 7%nat;
          _press_callback := 3%nat |},
   [EvRun [PStr "config-pin"; PStr "P8_07"; PStr "GPIO"] 1;
    EvGetRunningLoop; EvSetup "P8_7" IN PUD_UP]).
Proof. reflexivity. Qed.

Example init_record_with_keys :
  __init__ bench_consts board_ok "P8_7" 3%nat
    {[ "rest_pin" :=
         {[ "mode" := PStr "gpio_pu"; "bounce_time" := PInt 40 ]} ]} [] =
  (Ret {| _pin := "P8_7"; _bounce_time := PInt 40; _loop := 7%nat;
          _press_callback := 3%nat |},
   [EvRun [PStr "config-pin"; PStr "P8_07"; PStr "gpio_pu"] 1;
    EvGetRunningLoop; EvSetup "P8_7" IN PUD_UP]).
Proof. reflexivity. Qed.

(** C10.  Without a running event loop every construction raises, and it
    does so after the external configuration command has been called: the
    command is the first call made, and no input set-up follows.  When
    [configure_pin] itself returns normally, the exception is the
    [RuntimeError] of [asyncio.get_running_loop], whatever the driver would
    have answered to the input set-up. *)
Theorem init_needs_running_loop K W pin cb kwargs tr :
  (forall h, running_loop W h = None) ->
  let run := EvRun (config_argv K pin (Some (resolved_mode K kwargs))) 1 in
  exists e tr',
    __init__ K W pin cb kwargs tr = (Raise e, tr')
    /\ (tr' = tr ++ [run] \/ tr' = tr ++ [run; EvGetRunningLoop])
    /\ (fst (configure_pin K W pin (Some (resolved_mode K kwargs)) tr) =
        Ret tt ->
        e = RuntimeError "no running event loop" /\
        tr' = tr ++ [run; EvGetRunningLoop]).
Proof.
  intros Hloop run. rewrite (init_eq_stages K W pin cb kwargs tr).
  rewrite Hloop. unfold init_stages. cbn [take]. fold run.
  destruct (fst (configure_pin K W pin _ tr)) as [[]|e].
  - eexists _, _. split; [reflexivity|]. split; [by right|]. by intros _.
  - eexists _, _. split; [reflexivity|]. split; [by left|]. discriminate.
Qed.

Lemma init_needs_running_loop_witness :
  (forall h, running_loop board_no_loop h = None) /\
  exists e tr',
    __init__ bench_consts board_no_loop "P8_7" 3%nat ∅ [] = (Raise e, tr')
    /\ (tr' = [] ++ [EvRun (config_argv bench_consts "P8_7"
                              (Some (resolved_mode bench_consts ∅))) 1]
        \/ tr' = [] ++ [EvRun (config_argv bench_consts "P8_7"
                                 (Some (resolved_mode bench_consts ∅))) 1;
                        EvGetRunningLoop])
    /\ (fst (configure_pin bench_consts board_no_loop "P8_7"
               (Some (resolved_mode bench_consts ∅)) []) = Ret tt ->
        e = RuntimeError "no running event loop" /\
        tr' = [] ++ [EvRun (config_argv bench_consts "P8_7"
                              (Some (resolved_mode bench_consts ∅))) 1;
                     EvGetRunningLoop]).
Proof.
  split; [reflexivity|].
  apply (init_needs_running_loop bench_consts board_no_loop "P8_7" 3%nat ∅ []).
  reflexivity.
Defined.

Example init_without_loop :
  __init__ bench_consts board_no_loop "P8_7" 3%nat ∅ [] =
  (Raise (RuntimeError "no running event loop"),
   [EvRun [PStr "config-pin"; PStr "P8_07"; PStr "GPIO"] 1;
    EvGetRunningLoop]).
Proof. reflexivity. Qed.

(** * Further properties of gpio.py *)

(** ** Pin normalization *)

Lemma normalize_pin_length (pin : string) :
  String.length (normalize_pin pin) =
  if Nat.eqb (String.length pin) 4 then 5%nat else String.length pin.
Proof.
  unfold normalize_pin.
  destruct (Nat.eqb_spec (String.length pin) 4) as [H4|]; [|reflexivity].
  destruct (length4_inv pin H4) as (a & b & c & d & ->). reflexivity.
Qed.

Lemma normalize_pin_not_4 (pin : string) :
  String.length (normalize_pin pin) <> 4%nat.
Proof.
  rewrite normalize_pin_length.
  destruct (Nat.eqb_spec (String.length pin) 4); [discriminate | assumption].
Qed.

Lemma normalize_pin_fixed (pin : string) :
  normalize_pin (normalize_pin pin) = normalize_pin pin.
Proof. apply normalize_pin_other, normalize_pin_not_4. Qed.

Lemma normalize_pin_inj_4 (p q : string) :
  String.length p = 4%nat -> String.length q = 4%nat ->
  normalize_pin p = normalize_pin q -> p = q.
Proof.
  intros Hp Hq.
  destruct (length4_inv p Hp) as (a & b & c & d & ->).
  destruct (length4_inv q Hq) as (a' & b' & c' & d' & ->).
  cbv [normalize_pin String.length Nat.eqb substring String.append].
  intros [= -> -> -> ->]. reflexivity.
Qed.

(** X1.  Normalization is idempotent and never yields a pin of length 4: a
    compact pin and its expanded form run the very same configuration
    command. *)
Theorem configure_pin_normalized_twice K W pin mode tr :
  normalize_pin (normalize_pin pin) = normalize_pin pin
  /\ String.length (normalize_pin pin) <> 4%nat
  /\ configure_pin K W (normalize_pin pin) mode tr =
     configure_pin K W pin mode tr.
Proof.
  split; [apply normalize_pin_fixed|].
  split; [apply normalize_pin_not_4|].
  rewrite !configure_pin_eq. unfold config_argv.
  by rewrite normalize_pin_fixed.
Qed.

(** X2.  Two pins are configured under the same name exactly when they are
    equal or one of them is the 4-character compact form of the other; in
    particular different 4-character pins never collide. *)
Theorem normalize_pin_collisions (p q : string) :
  normalize_pin p = normalize_pin q <->
  (p = q
   \/ (String.length p = 4%nat /\ q = normalize_pin p)
   \/ (String.length q = 4%nat /\ p = normalize_pin q)).
Proof.
  split.
  - intros Heq.
    destruct (Nat.eq_dec (String.length p) 4%nat) as [Hp|Hp];
      destruct (Nat.eq_dec (String.length q) 4%nat) as [Hq|Hq].
    + left. by apply normalize_pin_inj_4.
    + right; left. split; [exact Hp|].
      by rewrite Heq, (normalize_pin_other q Hq).
    + right; right. split; [exact Hq|].
      by rewrite <- Heq, (normalize_pin_other p Hp).
    + left. by rewrite <- (normalize_pin_other p Hp),
                        <- (normalize_pin_other q Hq).
  - intros [->|[[_ ->]|[_ ->]]]; [reflexivity| |];
      by rewrite normalize_pin_fixed.
Qed.

Example normalize_pin_collision_P8_7 :
  normalize_pin "P8_7" = normalize_pin "P8_07".
Proof. reflexivity. Qed.

(** ** Output Driver *)

Lemma setup_output_eq W pin tr :
  setup_output W pin tr =
  (of_driver (gpio_setup W tr pin OUT PUD_DOWN),
   tr ++ [EvSetup pin OUT PUD_DOWN]).
Proof. reflexivity. Qed.

Lemma write_output_eq W pin value tr :
  write_output W pin value tr =
  (of_driver (gpio_output W tr pin value), tr ++ [EvOutput pin value]).
Proof. reflexivity. Qed.

(** X3.  The output functions do not translate driver errors.  Whatever
    exception the driver raises for the set-up of an output (always asked
    with direction OUT and pull-down) or for a write reaches the caller as it
    is; a [ValueError] or [SystemError], which [setup_input] would wrap, is
    not wrapped here. *)
Theorem output_errors_not_wrapped W pin value tr (e : exn) :
  (gpio_setup W tr pin OUT PUD_DOWN = Some e ->
   setup_output W pin tr = (Raise e, tr ++ [EvSetup pin OUT PUD_DOWN])
   /\ fst (setup_output W pin tr) <> Raise (GPIOInputException e))
  /\
  (gpio_output W tr pin value = Some e ->
   write_output W pin value tr = (Raise e, tr ++ [EvOutput pin value])
   /\ fst (write_output W pin value tr) <> Raise (GPIOInputException e)).
Proof.
  split; intros He.
  - rewrite setup_output_eq, He. split; [reflexivity|].
    cbn. intros [= H]. by apply exn_neq_wrapped in H.
  - rewrite write_output_eq, He. split; [reflexivity|].
    cbn. intros [= H]. by apply exn_neq_wrapped in H.
Qed.

Lemma output_errors_not_wrapped_witness :
  gpio_setup (board_setup_fails (ValueError "Invalid channel")) [] "P9_12"
    OUT PUD_DOWN = Some (ValueError "Invalid channel")
  /\ setup_output (board_setup_fails (ValueError "Invalid channel")) "P9_12"
       [] =
     (Raise (ValueError "Invalid channel"),
      [] ++ [EvSetup "P9_12" OUT PUD_DOWN])
  /\ fst (setup_output (board_setup_fails (ValueError "Invalid channel"))
            "P9_12" []) <>
     Raise (GPIOInputException (ValueError "Invalid channel")).
Proof.
  split; [reflexivity|].
  refine (proj1 (output_errors_not_wrapped
                   (board_setup_fails (ValueError "Invalid channel"))
                   "P9_12" (PInt 1) [] (ValueError "Invalid channel")) _).
  reflexivity.
Defined.

(** ** Exceptions that cannot leave the wrapping functions *)

(** X4.  [setup_input] never lets a [ValueError] or a [SystemError] out, and
    [edge_detect] never lets a [RuntimeError] out: an exception of a handled
    class always arrives as the typed input error. *)
Theorem handled_classes_never_escape W pin pull_mode cb bounce edge tr
    (e : exn) :
  (fst (setup_input W pin pull_mode tr) = Raise e ->
   is_ValueError_or_SystemError e = false)
  /\
  (fst (edge_detect W pin cb bounce edge tr) = Raise e ->
   is_RuntimeError e = false).
Proof.
  split.
  - rewrite setup_input_eq. cbn [fst].
    destruct (gpio_setup W tr pin IN _) as [e'|]; [|discriminate].
    destruct (is_ValueError_or_SystemError e') eqn:He'.
    + intros [= <-]. reflexivity.
    + intros [= <-]. exact He'.
  - rewrite edge_detect_eq. cbn [fst].
    destruct (gpio_add_event_detect W tr pin _ cb _) as [e'|];
      [|discriminate].
    destruct (is_RuntimeError e') eqn:He'.
    + intros [= <-]. reflexivity.
    + intros [= <-]. exact He'.
Qed.

Lemma handled_classes_never_escape_witness :
  fst (setup_input (board_setup_fails (SystemError "no exception set"))
         "P8_7" None []) =
  Raise (GPIOInputException (SystemError "no exception set"))
  /\ is_ValueError_or_SystemError
       (GPIOInputException (SystemError "no exception set")) = false.
Proof.
  split; [reflexivity|].
  refine (proj1 (handled_classes_never_escape
                   (board_setup_fails (SystemError "no exception set"))
                   "P8_7" None 3%nat None None []
                   (GPIOInputException (SystemError "no exception set"))) _).
  reflexivity.
Defined.

(** ** Reading *)

(** X5.  A read that the driver refuses is not translated: [read_input], for
    either active level or none, and [is_pressed] raise the driver's own
    exception after the one read they make. *)
Theorem read_errors_not_wrapped W (self : GpioBaseClass) on_state tr
    (e : exn) :
  gpio_input W tr (_pin self) = inl e ->
  read_input W (_pin self) on_state tr =
    (Raise e, tr ++ [EvInput (_pin self)])
  /\ is_pressed W self tr = (Raise e, tr ++ [EvInput (_pin self)]).
Proof.
  intros He. unfold is_pressed. rewrite !read_input_eq, He. by split.
Qed.

Lemma read_errors_not_wrapped_witness :
  gpio_input (board_read_fails (RuntimeError "not set up")) []
    (_pin {| _pin := "P8_7"; _bounce_time := PInt 25; _loop := 7%nat;
             _press_callback := 3%nat |}) =
  inl (RuntimeError "not set up")
  /\ is_pressed (board_read_fails (RuntimeError "not set up"))
       {| _pin := "P8_7"; _bounce_time := PInt 25; _loop := 7%nat;
          _press_callback := 3%nat |} [] =
     (Raise (RuntimeError "not set up"), [] ++ [EvInput "P8_7"]).
Proof.
  split; [reflexivity|].
  refine (proj2 (read_errors_not_wrapped
                   (board_read_fails (RuntimeError "not set up"))
                   {| _pin := "P8_7"; _bounce_time := PInt 25;
                      _loop := 7%nat; _press_callback := 3%nat |}
                   None [] (RuntimeError "not set up") _)).
  reflexivity.
Defined.

(** X6.  At one and the same history the two polarities are complementary:
    whenever the driver reports a level, exactly one of "active HIGH" and
    "active LOW" reads as [true]; leaving the active level out reads as
    active LOW. *)
Theorem read_input_polarities W pin tr (raw : Gpio_States) :
  gpio_input W tr pin = inr raw ->
  exists b,
    read_input W pin (Some LOW) tr = (Ret b, tr ++ [EvInput pin])
    /\ read_input W pin (Some HIGH) tr = (Ret (negb b), tr ++ [EvInput pin])
    /\ read_input W pin None tr = (Ret b, tr ++ [EvInput pin]).
Proof.
  intros Hraw. exists (Gpio_States_is raw LOW).
  rewrite !read_input_eq, Hraw. destruct raw; by repeat split.
Qed.

Lemma read_input_polarities_witness :
  gpio_input board_ok [] "P8_7" = inr HIGH /\
  exists b,
    read_input board_ok "P8_7" (Some LOW) [] = (Ret b, [] ++ [EvInput "P8_7"])
    /\ read_input board_ok "P8_7" (Some HIGH) [] =
       (Ret (negb b), [] ++ [EvInput "P8_7"])
    /\ read_input board_ok "P8_7" None [] = (Ret b, [] ++ [EvInput "P8_7"]).
Proof.
  split; [reflexivity|].
  refine (read_input_polarities board_ok "P8_7" [] HIGH _). reflexivity.
Defined.

(** ** Construction and the configuration record *)

(** X7.  The values of a configuration record are used as they are, without
    any check of their type or range: the value under the mode key becomes
    the last argument of the configuration command, and the value under
    [bounce_time] becomes the unit's bounce time. *)
Theorem init_uses_record_values K W pin cb kwargs tr
    (r : gmap string pyval) :
  kwargs !! "rest_pin" = Some r ->
  (forall m, r !! GPIO_MODE K = Some m ->
     exists rest,
       snd (__init__ K W pin cb kwargs tr) =
       tr ++ EvRun [PStr (CONFIG_PIN K); PStr (normalize_pin pin); m] 1
             :: rest)
  /\ (forall b u tr', r !! "bounce_time" = Some b ->
        __init__ K W pin cb kwargs tr = (Ret u, tr') ->
        _bounce_time u = b).
Proof.
  intros Hr. split.
  - intros m Hm.
    assert (Hmode : resolved_mode K kwargs = m).
    { unfold resolved_mode, rest_pin_of. by rewrite Hr; cbn; rewrite Hm. }
    rewrite (init_eq_stages K W pin cb kwargs tr).
    unfold init_stages, config_argv. rewrite Hmode.
    cbn [default from_option id take].
    destruct (fst (configure_pin K W pin _ tr)) as [[]|e];
      [|by exists []].
    destruct (running_loop W _) as [l|]; [|by eexists].
    destruct (fst (setup_input W pin None _)); by eexists.
  - intros b u tr' Hb Hinit.
    rewrite (init_eq_stages K W pin cb kwargs tr) in Hinit.
    destruct (fst (configure_pin K W pin _ tr)) as [[]|e];
      [|discriminate].
    destruct (running_loop W _) as [l|]; [|discriminate].
    destruct (fst (setup_input W pin None _)) as [[]|e]; [|discriminate].
    injection Hinit as <- _. cbn [_bounce_time].
    unfold rest_pin_of. by rewrite Hr; cbn; rewrite Hb.
Qed.

Lemma init_uses_record_values_witness :
  ({[ "rest_pin" := {[ "bounce_time" := PStr "soon" ]} ]}
     : gmap string (gmap string pyval)) !! "rest_pin" =
  Some {[ "bounce_time" := PStr "soon" ]}
  /\ ({[ "bounce_time" := PStr "soon" ]} : gmap string pyval)
       !! "bounce_time" = Some (PStr "soon")
  /\ __init__ bench_consts board_ok "P8_7" 3%nat
       {[ "rest_pin" := {[ "bounce_time" := PStr "soon" ]} ]} [] =
     (Ret {| _pin := "P8_7"; _bounce_time := PStr "soon"; _loop := 7%nat;
             _press_callback := 3%nat |},
      init_stages bench_consts "P8_7"
        {[ "rest_pin" := {[ "bounce_time" := PStr "soon" ]} ]})
  /\ _bounce_time {| _pin := "P8_7"; _bounce_time := PStr "soon";
                     _loop := 7%nat; _press_callback := 3%nat |} =
     PStr "soon".
Proof.
  split; [reflexivity|]. split; [reflexivity|]. split; [reflexivity|].
  refine (proj2 (init_uses_record_values bench_consts board_ok "P8_7" 3%nat
                   {[ "rest_pin" := {[ "bounce_time" := PStr "soon" ]} ]} []
                   {[ "bounce_time" := PStr "soon" ]} _)
          (PStr "soon") _
          (init_stages bench_consts "P8_7"
             {[ "rest_pin" := {[ "bounce_time" := PStr "soon" ]} ]}) _ _);
    reflexivity.
Defined.

(** X8.  Nothing but [rest_pin], and in it nothing but the mode key and
    [bounce_time], has any influence on a construction: other keyword
    arguments and other keys of the record change neither the calls made nor
    the result. *)
Theorem init_ignores_other_entries K W pin cb kwargs tr :
  (forall k v, k <> "rest_pin" ->
     __init__ K W pin cb (<[k:=v]> kwargs) tr =
     __init__ K W pin cb kwargs tr)
  /\ (forall (r : gmap string pyval) k v,
        k <> GPIO_MODE K -> k <> "bounce_time" ->
        __init__ K W pin cb (<["rest_pin" := <[k:=v]> r]> kwargs) tr =
        __init__ K W pin cb (<["rest_pin" := r]> kwargs) tr).
Proof.
  split.
  - intros k v Hk. unfold __init__, rest_pin_of.
    by rewrite lookup_insert_ne.
  - intros r k v Hm Hb. unfold __init__, rest_pin_of.
    rewrite !lookup_insert_eq. cbn [default from_option id].
    by rewrite !lookup_insert_ne.
Qed.

Lemma init_ignores_other_entries_witness :
  "pull_mode" <> GPIO_MODE bench_consts /\ "pull_mode" <> "bounce_time" /\
  __init__ bench_consts board_ok "P8_7" 3%nat
    (<["rest_pin" := <["pull_mode" := PStr "DOWN"]> ∅]> ∅) [] =
  __init__ bench_consts board_ok "P8_7" 3%nat (<["rest_pin" := ∅]> ∅) [].
Proof.
  split; [discriminate|]. split; [discriminate|].
  refine (proj2 (init_ignores_other_entries bench_consts board_ok "P8_7"
                   3%nat ∅ []) ∅ "pull_mode" (PStr "DOWN") _ _);
    discriminate.
Defined.

(** * Properties of install_script.py *)

(** ** The checks at the head of the script *)

Lemma check_os_cases isfile r :
  check_os isfile r = Ret None
  \/ check_os isfile r = Ret (Some false)
  \/ exists e, check_os isfile r = Raise e.
Proof.
  unfold check_os. destruct isfile; [|by left].
  destruct r as [d|e]; [|right; right; by eexists].
  destruct (d !! "id") as [id|]; [|right; right; by eexists].
  destruct (String.eqb id "debian"); [|right; by left].
  destruct (d !! "version_id") as [v|]; [|right; right; by eexists].
  right; by left.
Qed.

(** X9.  [check_os] never answers [True].  The version test compares the
    [str] read from the file with the [int] 10, which is never equal, so on
    a Debian system, whatever its version, the answer is [False]; without
    /etc/debian_version the function returns [None]. *)
Theorem check_os_never_true isfile r :
  check_os isfile r <> Ret (Some true)
  /\ (isfile = false -> check_os isfile r = Ret None)
  /\ (forall d v, isfile = true -> r = Ret d ->
        d !! "id" = Some "debian" -> d !! "version_id" = Some v ->
        check_os isfile r = Ret (Some false)).
Proof.
  split; [|split].
  - destruct (check_os_cases isfile r) as [->|[->|[e ->]]]; discriminate.
  - intros ->. reflexivity.
  - intros d v -> -> Hid Hv. unfold check_os. rewrite Hid, Hv. reflexivity.
Qed.

Lemma check_os_never_true_witness :
  true = true
  /\ ({[ "id" := "debian"; "version_id" := "10" ]} : gmap string string)
       !! "id" = Some "debian"
  /\ ({[ "id" := "debian"; "version_id" := "10" ]} : gmap string string)
       !! "version_id" = Some "10"
  /\ check_os true (Ret {[ "id" := "debian"; "version_id" := "10" ]}) =
     Ret (Some false).
Proof.
  split; [reflexivity|]. split; [reflexivity|]. split; [reflexivity|].
  refine (proj2 (proj2 (check_os_never_true true
                          (Ret {[ "id" := "debian"; "version_id" := "10" ]})))
          {[ "id" := "debian"; "version_id" := "10" ]} "10" _ _ _ _);
    reflexivity.
Defined.

(** X10.  The script never gets past its checks: for every user, system,
    architecture and Python version it ends with exit status 1, or with an
    exception of reading /etc/os-release, before the first installation
    command. *)
Theorem main_checks_never_pass geteuid isfile r machine version_info :
  main_checks geteuid isfile r machine version_info <> Returned tt
  /\ (main_checks geteuid isfile r machine version_info = Exited 1
      \/ exists e,
           main_checks geteuid isfile r machine version_info = Raised e).
Proof.
  unfold main_checks. destruct (is_root geteuid); [split; [discriminate|by left]|].
  destruct (check_os_cases isfile r) as [->|[->|[e ->]]]; cbn.
  - split; [discriminate | by left].
  - split; [discriminate | by left].
  - split; [discriminate | right; by eexists].
Qed.

Example main_checks_debian_10_armv7l :
  main_checks 1000 true (Ret {[ "id" := "debian"; "version_id" := "10" ]})
    "armv7l" (3, 9) = Exited 1.
Proof. reflexivity. Qed.

(** ** The dialogs *)

Lemma obind_not_exited {A B} (o : outcome A) (k : A -> outcome B) c :
  o <> Exited c -> (forall a, k a <> Exited c) -> obind o k <> Exited c.
Proof. destruct o; cbn; [auto | | discriminate]. intros H _. congruence. Qed.

Lemma run_not_exited Popen self control msg extra exit_on c :
  Whiptail.auto_exit self = false ->
  Whiptail.run Popen self control msg extra exit_on <> Exited c.
Proof.
  intros Hauto. unfold Whiptail.run.
  destruct (Popen _) as [e|[rc err]]; [discriminate|].
  rewrite Hauto. discriminate.
Qed.

Lemma run_answer Popen self control msg extra exit_on rc err :
  (forall argv, Popen argv = inr (rc, err)) ->
  Whiptail.run Popen self control msg extra exit_on =
  if Whiptail.auto_exit self && existsb (Z.eqb rc) (default [1; 255] exit_on)
  then Exited rc
  else Returned {| returncode := rc; value := err |}.
Proof. intros H. unfold Whiptail.run. by rewrite H. Qed.

Lemma item0_not_exited {A} (l : list A) c : item0 l <> Exited c.
Proof. destruct l; discriminate. Qed.

Lemma split_value_not_exited shlex_split r c :
  Whiptail.split_value shlex_split r <> Exited c.
Proof. unfold Whiptail.split_value. destruct (shlex_split _); discriminate. Qed.

Lemma showlist_not_exited Popen shlex_split self control msg items prefix c :
  Whiptail.auto_exit self = false ->
  Whiptail.showlist Popen shlex_split self control msg items prefix
  <> Exited c.
Proof.
  intros Hauto. unfold Whiptail.showlist.
  destruct items as [[[|x l]|[|x l]]|]; try discriminate;
    (apply obind_not_exited;
     [by apply run_not_exited | intros; apply split_value_not_exited]).
Qed.

Lemma show_tag_only_list_not_exited Popen shlex_split self control msg items
    prefix c :
  Whiptail.auto_exit self = false ->
  Whiptail.show_tag_only_list Popen shlex_split self control msg items prefix
  <> Exited c.
Proof.
  intros Hauto. unfold Whiptail.show_tag_only_list.
  destruct items as [[[|x l]|[|x l]]|]; try discriminate;
    (apply obind_not_exited;
     [by apply run_not_exited | intros; apply split_value_not_exited]).
Qed.

(** X11.  A [Whiptail] built with [auto_exit] off never ends the program:
    none of its dialogs calls [sys.exit], whatever [whiptail] answers. *)
Theorem no_auto_exit_never_exits Popen shlex_split self (c : Z) :
  Whiptail.auto_exit self = false ->
  (forall control msg extra exit_on,
     Whiptail.run Popen self control msg extra exit_on <> Exited c)
  /\ (forall msg d p, Whiptail.prompt Popen self msg d p <> Exited c)
  /\ (forall msg d, Whiptail.confirm Popen self msg d <> Exited c)
  /\ (forall msg, Whiptail.alert Popen self msg <> Exited c)
  /\ (forall path, Whiptail.view_file Popen self path <> Exited c)
  /\ (forall msg items prefix,
        Whiptail.menu Popen self msg items prefix <> Exited c)
  /\ (forall msg items prefix,
        Whiptail.radiolist Popen shlex_split self msg items prefix
        <> Exited c)
  /\ (forall msg items prefix,
        Whiptail.node_radiolist Popen shlex_split self msg items prefix
        <> Exited c)
  /\ (forall msg items prefix,
        Whiptail.checklist Popen shlex_split self msg items prefix
        <> Exited c).
Proof.
  intros Hauto.
  split; [intros; by apply run_not_exited|].
  split; [intros; apply obind_not_exited;
            [by apply run_not_exited | discriminate]|].
  split; [intros; apply obind_not_exited;
            [by apply run_not_exited | discriminate]|].
  split; [intros; apply obind_not_exited;
            [by apply run_not_exited | discriminate]|].
  split; [intros; apply obind_not_exited;
            [by apply run_not_exited | discriminate]|].
  split.
  { intros msg items prefix. unfold Whiptail.menu.
    destruct items as [[[|x l]|[|x l]]|]; try discriminate;
      (apply obind_not_exited; [by apply run_not_exited | discriminate]). }
  split; [intros; apply obind_not_exited;
            [by apply showlist_not_exited
            | intros; apply item0_not_exited]|].
  split; [intros; apply obind_not_exited;
            [by apply show_tag_only_list_not_exited
            | intros; apply item0_not_exited]|].
  intros. by apply showlist_not_exited.
Qed.

Lemma no_auto_exit_never_exits_witness :
  Whiptail.auto_exit quiet_dialog = false /\
  Whiptail.prompt (fun _ => inr (255, "")) quiet_dialog "Name" None None
  <> Exited 255.
Proof.
  split; [reflexivity|].
  refine (proj1 (proj2 (no_auto_exit_never_exits (fun _ => inr (255, ""))
                          (fun _ => inr []) quiet_dialog 255 _))
          "Name" None None).
  reflexivity.
Defined.

(** X12.  [confirm] tells "No" from "Cancel".  It answers [True] exactly
    when [whiptail] ends with status 0 and [False] on status 1, without
    leaving the program; it can leave the program only with status 255.  The
    other dialogs, with [auto_exit] on, leave the program on status 1
    too. *)
Theorem confirm_no_is_not_cancel Popen self msg d rc err :
  (forall argv, Popen argv = inr (rc, err)) ->
  (rc = 0 -> Whiptail.confirm Popen self msg d = Returned true)
  /\ (rc = 1 ->
        Whiptail.confirm Popen self msg d = Returned false
        /\ (Whiptail.auto_exit self = true ->
            Whiptail.prompt Popen self msg None None = Exited 1
            /\ Whiptail.alert Popen self msg = Exited 1))
  /\ (Whiptail.confirm Popen self msg d = Returned true -> rc = 0)
  /\ (forall c, Whiptail.confirm Popen self msg d = Exited c ->
        c = 255 /\ rc = 255 /\ Whiptail.auto_exit self = true).
Proof.
  intros HP.
  unfold Whiptail.confirm, Whiptail.prompt, Whiptail.alert.
  rewrite !(run_answer Popen self _ _ _ _ rc err HP).
  cbn [default from_option id existsb]. rewrite !orb_false_r.
  split; [|split; [|split]].
  - intros ->. cbn. rewrite andb_false_r. reflexivity.
  - intros ->. cbn. rewrite andb_false_r.
    split; [reflexivity|]. intros ->. split; reflexivity.
  - destruct (Whiptail.auto_exit self && (rc =? 255)); cbn;
      [discriminate|].
    intros [= H]. by apply Z.eqb_eq.
  - intros c. destruct (Whiptail.auto_exit self) eqn:Ha; cbn;
      [|discriminate].
    destruct (Z.eqb_spec rc 255) as [->|]; cbn; [|discriminate].
    intros [= <-]. by repeat split.
Qed.

Lemma confirm_no_is_not_cancel_witness :
  (forall argv : list string,
     (fun _ => inr (1, "")) argv = (inr (1, "") : exn + Z * string))
  /\ Whiptail.confirm (fun _ => inr (1, "")) installer_dialog
       "Enable HA discovery" (Some "yes") = Returned false
  /\ Whiptail.alert (fun _ => inr (1, "")) installer_dialog
       "Enable HA discovery" = Exited 1.
Proof.
  split; [reflexivity|].
  destruct (proj1 (proj2 (confirm_no_is_not_cancel (fun _ => inr (1, ""))
                            installer_dialog "Enable HA discovery"
                            (Some "yes") 1 "" (fun _ => eq_refl)))
              eq_refl) as [Hno Hexit].
  split; [exact Hno|]. exact (proj2 (Hexit eq_refl)).
Defined.

(** X13.  A list dialog without items raises [IndexError] and does so before
    [whiptail] is started: the answer is the same for every [Popen].  This
    holds for the default [items=()] and for an empty list, in [menu],
    [radiolist], [node_radiolist] and [checklist]. *)
Theorem empty_items_raise_IndexError Popen shlex_split self msg prefix :
  (exists m,
     Whiptail.menu Popen self msg None prefix =
     Raised (OtherError "IndexError" m))
  /\ (forall items, items = inl [] \/ items = inr [] ->
        exists m,
          Whiptail.menu Popen self msg (Some items) prefix =
          Raised (OtherError "IndexError" m))
  /\ (forall items,
        items = None \/ items = Some (inl []) \/ items = Some (inr []) ->
        exists m,
          Whiptail.radiolist Popen shlex_split self msg items prefix =
          Raised (OtherError "IndexError" m)
          /\ Whiptail.node_radiolist Popen shlex_split self msg items prefix =
             Raised (OtherError "IndexError" m)
          /\ Whiptail.checklist Popen shlex_split self msg items prefix =
             Raised (OtherError "IndexError" m)).
Proof.
  split; [by eexists|]. split.
  - intros items [->| ->]; by eexists.
  - intros items [->|[->| ->]]; by eexists.
Qed.

Lemma empty_items_raise_IndexError_witness :
  ((inl [] : list string + list (string * string)) = inl [] \/
   (inl [] : list string + list (string * string)) = inr [])
  /\ exists m,
       Whiptail.menu (fun _ => inr (0, "RB32")) installer_dialog
         (Some "Outputs") (Some (inl [])) None =
       Raised (OtherError "IndexError" m).
Proof.
  split; [by left|].
  refine (proj1 (proj2 (empty_items_raise_IndexError
                          (fun _ => inr (0, "RB32")) (fun _ => inr [])
                          installer_dialog (Some "Outputs") None))
          (inl []) _).
  by left.
Defined.



Lemma tag_only_flat (l : list (string * string * string)) :
  map (fun '(a, b, c) => [a; b; c])
    (map (fun '(tag, _, state) => (tag, "", state))
       (map (fun '(tag, _, state) => (tag, "", state)) l)) =
  map (fun '(a, b, c) => [a; b; c])
    (map (fun '(tag, _, state) => (tag, "", state)) l).
Proof.
  rewrite !map_map. apply map_ext. by intros [[tag v] state].
Qed.

Lemma tag_only_flat_prefix (l : list (string * string * string)) :
  map (fun '(a, b, c) => [a; b; c])
    (map (fun '(tag, v, state) => (tag, String.append "" v, state))
       (map (fun '(tag, _, state) => (tag, "", state)) l)) =
  map (fun '(a, b, c) => [a; b; c])
    (map (fun '(tag, _, state) => (tag, "", state)) l).
Proof.
  rewrite !map_map. apply map_ext. by intros [[tag v] state].
Qed.

(** X15.  [show_tag_only_list] shows no description: its answer depends
    neither on the prefix nor on the descriptions of the items, and equals
    that of [showlist] on the same items with empty descriptions and an empty
    prefix.  On a list of plain tags the two functions agree. *)
Theorem tag_only_list_drops_descriptions Popen shlex_split self control msg
    prefix prefix' (l : list (string * string * string)) (tags : list string) :
  let bare := map (fun '(tag, _, state) => (tag, "", state)) l in
  Whiptail.show_tag_only_list Popen shlex_split self control msg
    (Some (inr l)) prefix =
  Whiptail.show_tag_only_list Popen shlex_split self control msg
    (Some (inr bare)) prefix'
  /\ Whiptail.show_tag_only_list Popen shlex_split self control msg
       (Some (inr l)) prefix =
     Whiptail.showlist Popen shlex_split self control msg
       (Some (inr bare)) ""
  /\ Whiptail.show_tag_only_list Popen shlex_split self control msg
       (Some (inl tags)) prefix =
     Whiptail.showlist Popen shlex_split self control msg
       (Some (inl tags)) prefix'.
Proof.
  intros bare. subst bare. split; [|split].
  - destruct l as [|[[tag v] state] l]; [reflexivity|].
    unfold Whiptail.show_tag_only_list, flatten. cbn [map concat].
    by rewrite tag_only_flat.
  - destruct l as [|[[tag v] state] l]; [reflexivity|].
    unfold Whiptail.show_tag_only_list, Whiptail.showlist, flatten.
    cbn [map concat String.append]. by rewrite tag_only_flat_prefix.
  - destruct tags; reflexivity.
Qed.

(** X16.  [menu] on a list of plain tags ignores the prefix and shows empty
    descriptions: it is [menu] on the pairs of each tag with the empty
    description, under the empty prefix. *)
Theorem menu_tags_as_pairs Popen self msg prefix (tags : list string) :
  Whiptail.menu Popen self msg (Some (inl tags)) prefix =
  Whiptail.menu Popen self msg
    (Some (inr (map (fun i => (i, "")) tags))) (Some "").
Proof.
  destruct tags as [|x tags]; [reflexivity|].
  unfold Whiptail.menu, flatten. cbn [map concat String.append].
  rewrite !map_map. reflexivity.
Qed.

(** X17.  A unit keeps the pin as it was given.  For a 4-character pin the
    expanded name goes to the configuration command only: the input set-up
    and every later read use the compact name, which differs from it. *)
Theorem init_keeps_compact_pin K W pin cb kwargs tr u tr' :
  String.length pin = 4%nat ->
  __init__ K W pin cb kwargs tr = (Ret u, tr') ->
  _pin u = pin
  /\ _pin u <> normalize_pin pin
  /\ tr' = tr ++ [EvRun [PStr (CONFIG_PIN K); PStr (normalize_pin pin);
                         resolved_mode K kwargs] 1;
                  EvGetRunningLoop;
                  EvSetup pin IN PUD_UP]
  /\ (forall h, snd (is_pressed W u h) = h ++ [EvInput pin]).
Proof.
  intros H4 Hinit.
  destruct (init_ret_inv K W pin cb kwargs tr u) as (Htr & _ & _ & Hp & _);
    [by rewrite Hinit|].
  rewrite Hinit in Htr. cbn [snd] in Htr.
  split; [exact Hp|]. split.
  { rewrite Hp. intros Heq.
    pose proof (normalize_pin_not_4 pin) as Hn. by rewrite <- Heq in Hn. }
  split; [exact Htr|].
  intros h. unfold is_pressed. rewrite Hp, read_input_eq. reflexivity.
Qed.

Lemma init_keeps_compact_pin_witness :
  String.length "P8_7" = 4%nat
  /\ __init__ bench_consts board_ok "P8_7" 3%nat ∅ [] =
     (Ret {| _pin := "P8_7"; _bounce_time := PInt 25; _loop := 7%nat;
             _press_callback := 3%nat |},
      init_stages bench_consts "P8_7" ∅)
  /\ _pin {| _pin := "P8_7"; _bounce_time := PInt 25; _loop := 7%nat;
             _press_callback := 3%nat |} <> normalize_pin "P8_7".
Proof.
  split; [reflexivity|]. split; [reflexivity|].
  refine (proj1 (proj2 (init_keeps_compact_pin bench_consts board_ok "P8_7"
                          3%nat ∅ []
                          {| _pin := "P8_7"; _bounce_time := PInt 25;
                             _loop := 7%nat; _press_callback := 3%nat |}
                          (init_stages bench_consts "P8_7" ∅) _ _)));
    reflexivity.
Defined.
